(** * StreamlitInterface.py: the sentiment dashboard, as a Rocq model

    The script [src/StreamlitInterface.py] is a Streamlit page: every run
    executes the file from top to bottom, asks the widgets for their
    current values, issues HTTP requests through [requests] and renders
    elements.  The model below follows the file in order.

    - [Py]: the Python values the script manipulates (strings as sequences
      of code points, binary64 floats, the objects [response.json()]
      returns, exceptions) and the builtin operations the script calls on
      them.
    - [St]: the rendered elements, the events of a run and the monad in
      which the script is written (session state, emitted events,
      exceptions and [st.rerun]).
    - [App]: the script itself, section by section.
    - the theorems about it. *)

From Stdlib Require Import String Ascii List ZArith NArith Bool Lia Floats.
From Stdlib Require Import DecimalString.
Import ListNotations.

Set Warnings "-inexact-float,-register-all".

(* ===================================================================== *)
(** ** Python values and builtins *)
(* ===================================================================== *)
Module Py.

(** A Python [str] is a sequence of Unicode code points; [len] counts them. *)
Definition str := list N.

(** Source literals are written in UTF-8; [decode] turns the bytes of a
    literal into its code points.  [acc] holds the bits read so far of a
    multi-byte sequence and [k] the number of continuation bytes still
    expected. *)
Fixpoint decode (acc : N) (k : nat) (s : string) : str :=
  match s with
  | EmptyString => []
  | String a rest =>
      let b := N_of_ascii a in
      match k with
      | O =>
          if (b <? 128)%N then b :: decode 0 0 rest
          else if (b <? 224)%N then decode (b - 192) 1 rest
          else if (b <? 240)%N then decode (b - 224) 2 rest
          else decode (b - 240) 3 rest
      | S O => (acc * 64 + (b - 128))%N :: decode 0 0 rest
      | S k' => decode (acc * 64 + (b - 128))%N k' rest
      end
  end.

Definition lit (s : string) : str := decode 0 0 s.
Arguments lit s%_string.

Definition len (s : str) : nat := length s.

Fixpoint str_eqb (a b : str) : bool :=
  match a, b with
  | [], [] => true
  | x :: a', y :: b' => (x =? y)%N && str_eqb a' b'
  | _, _ => false
  end.

(** [s.startswith(prefix)] *)
Fixpoint startswith (s prefix : str) {struct prefix} : bool :=
  match prefix with
  | [] => true
  | p :: prefix' =>
      match s with
      | [] => false
      | c :: s' => (c =? p)%N && startswith s' prefix'
      end
  end.

(** [needle in hay] *)
Fixpoint contains (hay needle : str) : bool :=
  startswith hay needle ||
  match hay with
  | [] => false
  | _ :: hay' => contains hay' needle
  end.

(** [str(n)] for a non-negative integer. *)
Definition str_of_N (n : N) : str :=
  lit (NilZero.string_of_uint (N.to_uint n)).

Definition str_of_nat (n : nat) : str := str_of_N (N.of_nat n).

(** *** Floats and their fixed-point formatting

    Python floats are IEEE 754 binary64 values, as are Rocq's primitive
    floats.  The format types [f] and [%] print the exact binary value
    rounded to [prec] decimals, ties to even; [%] first multiplies by 100
    in floating point. *)

Definition round_half_even (num den : Z) : Z :=
  let q := (num / den)%Z in
  let r := (num mod den)%Z in
  match (2 * r ?= den)%Z with
  | Lt => q
  | Gt => (q + 1)%Z
  | Eq => if Z.even q then q else (q + 1)%Z
  end.

(** [zfill w s]: [s] padded on the left with zeros up to [w] code points. *)
Definition zfill (w : nat) (s : str) : str :=
  repeat 48%N (w - length s) ++ s.

(** The digits of [n / 10^prec] with [prec] decimals; no point when
    [prec = 0]. *)
Definition fixed (prec : nat) (n : Z) : str :=
  let scale := (10 ^ Z.of_nat prec)%Z in
  let ipart := str_of_N (Z.to_N (n / scale)) in
  match prec with
  | O => ipart
  | _ => ipart ++ lit "." ++ zfill prec (str_of_N (Z.to_N (n mod scale)))
  end.

Definition sign_str (negative : bool) : str :=
  if negative then lit "-" else [].

Definition format_f (prec : nat) (x : float) : str :=
  match Prim2SF x with
  | S754_nan => lit "nan"
  | S754_infinity s => sign_str s ++ lit "inf"
  | S754_zero s => sign_str s ++ fixed prec 0
  | S754_finite s m e =>
      let scale := (10 ^ Z.of_nat prec)%Z in
      let n :=
        match e with
        | Zneg k => round_half_even (Zpos m * scale) (2 ^ Zpos k)
        | _ => (Zpos m * 2 ^ e * scale)%Z
        end in
      sign_str s ++ fixed prec n
  end.

(** [format(x, ".{prec}%")] *)
Definition format_pct (prec : nat) (x : float) : str :=
  format_f prec (x * 100)%float ++ lit "%".

(** *** Objects decoded from a response body

    [response.json()] returns [None], a [bool], an [int], a [float], a
    [str], a [list] or a [dict] with string keys.  A [dict] is kept as
    its items in insertion order; its keys are distinct and a lookup
    returns the item with that key. *)
Inductive pyval :=
| PyNone
| PyBool (b : bool)
| PyInt (z : Z)
| PyFloat (f : float)
| PyStr (s : str)
| PyList (l : list pyval)
| PyDict (items : list (str * pyval)).

(** The exceptions this script can meet; all derive from [Exception]. *)
Inductive exn :=
| KeyError (key : str)
| TypeError
| AttributeError
| ValueError
| OverflowError
| RequestException (detail : str)
| JSONDecodeError (detail : str).

(** What the interpreter and its libraries fix and this repository does
    not: the Unicode case tables outside ASCII ([unicode_lower before c
    after] is the lowercase expansion of the code point [c] between
    [before] and [after]), the text [str(e)] of an exception, the text
    [str(v)] of an object that is not a string, and what the two drawing
    calls that receive values of a response as they came do with a value
    of another type than the expected one: [html_rejects v] is the
    exception [st.components.v1.html] raises for a [v] that is not a
    string, [bar_rejects n p] the exception [px.bar] (or
    [st.plotly_chart]) raises for probabilities that are not both floats;
    [None] when the call accepts them. *)
Record runtime := {
  unicode_lower : str -> N -> str -> str;
  exn_str : exn -> str;
  repr : pyval -> str;
  html_rejects : pyval -> option exn;
  bar_rejects : pyval -> pyval -> option exn
}.

Definition ascii_lower (c : N) : N :=
  if (65 <=? c)%N && (c <=? 90)%N then (c + 32)%N else c.

Section Builtins.
Variable rt : runtime.

Fixpoint lower_from (before s : str) : str :=
  match s with
  | [] => []
  | c :: rest =>
      (if (c <? 128)%N then [ascii_lower c] else unicode_lower rt before c rest)
      ++ lower_from (before ++ [c]) rest
  end.

(** [s.lower()] *)
Definition lower (s : str) : str := lower_from [] s.

(** [v.lower()]: only strings have the method. *)
Definition call_lower (v : pyval) : exn + str :=
  match v with
  | PyStr s => inr (lower s)
  | _ => inl AttributeError
  end.

(** [format(v, "")] inside an f-string. *)
Definition format_plain (v : pyval) : str :=
  match v with
  | PyStr s => s
  | _ => repr rt v
  end.
End Builtins.

Fixpoint lookup (key : str) (items : list (str * pyval)) : option pyval :=
  match items with
  | [] => None
  | (k, v) :: items' => if str_eqb k key then Some v else lookup key items'
  end.

(** [v[key]] for a string [key]. *)
Definition subscript (v : pyval) (key : str) : exn + pyval :=
  match v with
  | PyDict items =>
      match lookup key items with
      | Some x => inr x
      | None => inl (KeyError key)
      end
  | _ => inl TypeError
  end.

(** [float(z)]: the nearest binary64 value, [OverflowError] beyond the
    finite range. *)
Definition float_of_int (z : Z) : exn + float :=
  match binary_normalize prec emax z 0 false with
  | S754_infinity _ => inl OverflowError
  | sf => inr (SF2Prim sf)
  end.

(** The number a float format type ([f], [%]) prints for [v]. *)
Definition float_for_format (v : pyval) : exn + float :=
  match v with
  | PyFloat f => inr f
  | PyInt z => float_of_int z
  | PyBool b => float_of_int (Z.b2z b)
  | PyStr _ => inl ValueError
  | _ => inl TypeError
  end.

(** [v > 0] *)
Definition gt_zero (v : pyval) : exn + bool :=
  match v with
  | PyFloat f => inr (0 <? f)%float
  | PyInt z => inr (0 <? z)%Z
  | PyBool b => inr b
  | _ => inl TypeError
  end.

(** The items a [for] loop over [v] visits. *)
Definition iterate (v : pyval) : exn + list pyval :=
  match v with
  | PyList l => inr l
  | PyStr s => inr (map (fun c => PyStr [c]) s)
  | PyDict items => inr (map (fun kv => PyStr (fst kv)) items)
  | _ => inl TypeError
  end.

(** Truth value of a string: non-empty. *)
Definition truthy (s : str) : bool :=
  match s with [] => false | _ => true end.

End Py.

(* ===================================================================== *)
(** ** Streamlit: elements, events and the monad of a script run *)
(* ===================================================================== *)
Module St.
Import Py.

(** Where an element is drawn. *)
Inductive place := Main | Sidebar | Column (i : nat) | InExpander.

(** [px.bar(x=, y=, color=, color_discrete_map=, labels=)] *)
Record bar_figure := {
  bar_x : list str;
  bar_y : list pyval;
  bar_color : list str;
  color_discrete_map : list (str * str);
  bar_labels : list (str * str)
}.

(** The elements the script draws, with the arguments it passes. *)
Inductive widget :=
| PageConfig (page_title page_icon layout : str)
| Markdown (body : str) (unsafe_allow_html : bool)
| Warning (body : str)
| Success (body : str)
| Error (body : str)
| Info (body : str)
| Header (body : str)
| Subheader (body : str)
| Title (body : str)
| Caption (body : str)
| Divider
| Selectbox (label : str) (options : list str)
| TextArea (label value : str) (max_chars : nat) (placeholder help : str)
| Button (label : str) (disabled primary : bool)
| Spinner (text : str)
| PlotlyChart (fig : bar_figure)
| HtmlComponent (html : pyval) (height : Z) (scrolling : bool)
| Expander (label : str).

Inductive request :=
| Get (url : str)
| Post (url : str) (json_body : pyval).

(** A response: its status code and what [.json()] gives (or raises). *)
Record response := {
  status_code : Z;
  json : exn + pyval
}.

Inductive event :=
| Render (p : place) (w : widget)
| Send (r : request)
| SpinnerCleared.

(** What interrupts a script: an exception nobody caught, or [st.rerun()],
    which is not an [Exception] and passes through [except Exception]. *)
Inductive stop := Uncaught (e : exn) | Rerun.

(** [st.session_state]: the script only uses the key ["tweet_text"]. *)
Definition session := option str.

(** A computation reads and writes the session state, emits events and
    either returns or stops.  Events emitted before a stop are kept. *)
Definition M (A : Type) : Type := session -> (stop + A) * session * list event.

Definition ret {A} (a : A) : M A := fun s => (inr a, s, []).

Definition bind {A B} (m : M A) (f : A -> M B) : M B := fun s =>
  match m s with
  | (inl st, s', ev) => (inl st, s', ev)
  | (inr a, s', ev) =>
      match f a s' with
      | (r, s'', ev') => (r, s'', ev ++ ev')
      end
  end.

Definition raise {A} (e : exn) : M A := fun s => (inl (Uncaught e), s, []).

Definition lift {A} (x : exn + A) : M A :=
  match x with
  | inl e => raise e
  | inr a => ret a
  end.

Definition emit (e : event) : M unit := fun s => (inr tt, s, [e]).

(** [st.rerun()] *)
Definition rerun : M unit := fun s => (inl Rerun, s, []).

(** [st.session_state.get("tweet_text", default)] *)
Definition session_get (default : str) : M str := fun s =>
  (inr (match s with Some v => v | None => default end), s, []).

(** [st.session_state["tweet_text"] = v] *)
Definition session_set (v : str) : M unit := fun _ => (inr tt, Some v, []).

(** [try: body / except Exception as e: handler e] *)
Definition try_except (body : M unit) (handler : exn -> M unit) : M unit := fun s =>
  match body s with
  | (inl (Uncaught e), s', ev) =>
      match handler e s' with
      | (r, s'', ev') => (r, s'', ev ++ ev')
      end
  | other => other
  end.

(** [with st.spinner(text): body]: the spinner is shown while the block
    runs and removed when it is left, however it is left. *)
Definition with_spinner (text : str) (body : M unit) : M unit := fun s =>
  match body s with
  | (r, s', ev) => (r, s', Render Main (Spinner text) :: ev ++ [SpinnerCleared])
  end.

Declare Scope script_scope.
Delimit Scope script_scope with script.
Notation "x <- m ;; k" := (bind m (fun x => k))
  (at level 61, m at next level, right associativity) : script_scope.
Notation "m ;; k" := (bind m (fun _ => k))
  (at level 61, right associativity) : script_scope.
Open Scope script_scope.

(** [for item in items: body item] *)
Fixpoint for_each {A} (items : list A) (body : A -> M unit) : M unit :=
  match items with
  | [] => ret tt
  | item :: items' => body item ;; for_each items' body
  end.

(** What one run of the script receives from outside: the environment
    variable, the session state left by earlier runs, the values the
    widgets return and the answers of the network. *)
Record inputs := {
  getenv_API_URL : option str;
  session0 : session;
  selectbox_value : str;
  text_area_value : str;
  predict_pressed : bool;
  explain_pressed : bool;
  clear_pressed : bool;
  network : request -> exn + response
}.

(** Observations on a finished run. *)
Definition outcome {A} (r : (stop + A) * session * list event) : stop + A := fst (fst r).
Definition final_session {A} (r : (stop + A) * session * list event) : session := snd (fst r).
Definition events {A} (r : (stop + A) * session * list event) : list event := snd r.

End St.

(* ===================================================================== *)
(** ** The script *)
(* ===================================================================== *)
Module App.
Import Py St.

Section Script.
Variable rt : runtime.
Variable inp : inputs.

(** [st.set_page_config(...)] *)
Definition page_config : M unit :=
  emit (Render Main (PageConfig (lit "Twitter Sentiment Analyzer") (lit "💬") (lit "wide"))).

(** [API_URL = os.getenv("API_URL", "http://127.0.0.1:8000")] *)
Definition API_URL : str :=
  match getenv_API_URL inp with
  | Some v => v
  | None => lit "http://127.0.0.1:8000"
  end.

(** The sidebar line naming the API, and the alert for local mode. *)
Definition api_banner : M unit :=
  emit (Render Sidebar (Markdown (lit "🔗 **API utilisée :** `" ++ API_URL ++ lit "`") false)) ;;
  if contains API_URL (lit "localhost")
  then emit (Render Main (Warning (lit "⚠️ L'application est configurée pour le mode local.")))
  else ret tt.

Definition examples : list str := [
  lit "J'adore ce produit, il est incroyable !";
  lit "Ce film est une perte de temps totale...";
  lit "Service client très professionnel 👍";
  lit "Je ne recommanderai jamais cet endroit 😡"
].

(** [with st.sidebar: ...] *)
Definition sidebar : M unit :=
  emit (Render Sidebar (Header (lit "ℹ️ Informations"))) ;;
  emit (Render Sidebar (Markdown (lit "
    Cette application utilise :
    - 🤖 *Machine Learning* pour la prédiction  
    - 🧩 *LIME* pour l’explicabilité  
    - ⚡ *FastAPI* pour les performances  
    - 🎨 *Streamlit* pour l’interface
    ") false)) ;;
  emit (Render Sidebar Divider) ;;
  emit (Render Sidebar (Subheader (lit "🧠 Modèle"))) ;;
  emit (Render Sidebar (Info (lit "Type : **Logistic Regression**

Vocabulaire : 10 000 mots"))) ;;
  emit (Render Sidebar Divider) ;;
  emit (Render Sidebar (Subheader (lit "💡 Comment ça marche ?"))) ;;
  emit (Render Sidebar (Markdown (lit "
    1️⃣ Saisissez votre tweet  
    2️⃣ Cliquez sur *Prédire le sentiment*  
    3️⃣ Explorez l’explication LIME  
    4️⃣ Comprenez la décision du modèle
    ") false)) ;;
  emit (Render Sidebar Divider) ;;
  emit (Render Sidebar (Subheader (lit "📚 Exemples à tester"))) ;;
  emit (Render Sidebar (Selectbox (lit "Choisir un exemple :") (lit "" :: examples))) ;;
  let example := selectbox_value inp in
  if truthy example then session_set example else ret tt.

Definition heading : M unit :=
  emit (Render Main (Title (lit "💬 Twitter Sentiment Analyzer"))) ;;
  emit (Render Main (Caption (lit "Analyse de sentiment avec Intelligence Artificielle et explicabilité LIME"))).

(** [requests.get(url)], [requests.post(url, json=body)] *)
Definition requests_get (url : str) : M response :=
  emit (Send (Get url)) ;; lift (network inp (Get url)).

Definition requests_post (url : str) (body : pyval) : M response :=
  emit (Send (Post url body)) ;; lift (network inp (Post url body)).

(** Test API connection *)
Definition health_probe : M unit :=
  try_except
    (health <- requests_get (API_URL ++ lit "/health") ;;
     if (status_code health =? 200)%Z
     then emit (Render Main (Success (lit "✅ API connectée avec succès")))
     else emit (Render Main (Error (lit "⚠️ API injoignable"))))
    (fun _ =>
     emit (Render Main (Error (lit "❌ Impossible de se connecter à l’API. Vérifiez qu’elle est lancée.")))).

(** [tweet_text = st.text_area(...)] *)
Definition input_zone : M str :=
  value <- session_get (lit "") ;;
  emit (Render Main (TextArea (lit "📝 Saisissez votre tweet à analyser") value 280
          (lit "Tapez votre tweet ici... (280 caractères max)")
          (lit "Exemple : 'J'adore ce produit, il est fantastique !'"))) ;;
  ret (text_area_value inp).

(** The markup of the character counter. *)
Definition counter_markup (char_count : nat) : str :=
  if char_count <? 240
  then lit "<span style='color:green'>" ++ str_of_nat char_count ++ lit "/280</span>"
  else if char_count <=? 280
  then lit "<span style='color:orange'>" ++ str_of_nat char_count ++ lit "/280</span>"
  else lit "<span style='color:red'>" ++ str_of_nat char_count ++ lit "/280</span>".

Definition counter (char_count : nat) : M unit :=
  emit (Render Main (Markdown (counter_markup char_count) true)).

(** [text_valid = 0 < char_count <= 280] *)
Definition text_valid (char_count : nat) : bool :=
  (0 <? char_count) && (char_count <=? 280).

(** The three buttons; each call returns whether the button was pressed. *)
Definition action_buttons (valid : bool) : M (bool * bool * bool) :=
  emit (Render (Column 1) (Button (lit "🎯 Prédire le sentiment") (negb valid) true)) ;;
  emit (Render (Column 2) (Button (lit "🔍 LIME (30-60s)") (negb valid) false)) ;;
  emit (Render (Column 3) (Button (lit "🗑️ Effacer") false false)) ;;
  ret (predict_pressed inp, explain_pressed inp, clear_pressed inp).

Definition clear_action (clear_btn : bool) : M unit :=
  if clear_btn then session_set (lit "") ;; rerun else ret tt.

(** [f"{v:.1%}"], [f"{v:.3f}"] *)
Definition fmt_pct1 (v : pyval) : M str :=
  x <- lift (float_for_format v) ;; ret (format_pct 1 x).

Definition fmt_f3 (v : pyval) : M str :=
  x <- lift (float_for_format v) ;; ret (format_f 3 x).

Definition probability_chart (prob_neg prob_pos : pyval) : bar_figure := {|
  bar_x := [lit "Négatif"; lit "Positif"];
  bar_y := [prob_neg; prob_pos];
  bar_color := [lit "Négatif"; lit "Positif"];
  color_discrete_map := [(lit "Négatif", lit "red"); (lit "Positif", lit "green")];
  bar_labels := [(lit "x", lit "Classe"); (lit "y", lit "Probabilité")]
|}.

(** [px.bar(x=..., y=[prob_neg, prob_pos], ...)]: two floats give the
    figure; for other values the runtime says whether the call raises. *)
Definition px_bar (prob_neg prob_pos : pyval) : exn + bar_figure :=
  match prob_neg, prob_pos with
  | PyFloat _, PyFloat _ => inr (probability_chart prob_neg prob_pos)
  | _, _ =>
      match bar_rejects rt prob_neg prob_pos with
      | Some e => inl e
      | None => inr (probability_chart prob_neg prob_pos)
      end
  end.

(** What is drawn for the decoded body of a 200 answer of /predict. *)
Definition render_prediction (data : pyval) : M unit :=
  sentiment <- lift (subscript data (lit "sentiment")) ;;
  confidence <- lift (subscript data (lit "confidence")) ;;
  prob_pos <- lift (subscript data (lit "probability_positive")) ;;
  prob_neg <- lift (subscript data (lit "probability_negative")) ;;
  lowered <- lift (call_lower rt sentiment) ;;
  (if startswith lowered (lit "pos")
   then pct <- fmt_pct1 confidence ;;
        emit (Render Main (Success (lit "😊 **POSiTIF** (" ++ pct ++ lit ")")))
   else pct <- fmt_pct1 confidence ;;
        emit (Render Main (Error (lit "😞 **NÉGATIF** (" ++ pct ++ lit ")")))) ;;
  fig <- lift (px_bar prob_neg prob_pos) ;;
  emit (Render Main (PlotlyChart fig)).

(** [if predict_btn and text_valid: ...] *)
Definition predict_section (predict_btn valid : bool) (tweet_text : str) : M unit :=
  if predict_btn && valid then
    with_spinner (lit "Analyse du tweet en cours...")
      (try_except
         (response <- requests_post (API_URL ++ lit "/predict")
                        (PyDict [(lit "text", PyStr tweet_text)]) ;;
          if (status_code response =? 200)%Z
          then data <- lift (json response) ;; render_prediction data
          else emit (Render Main (Error (lit "Erreur lors de la requête à l’API."))))
         (fun e => emit (Render Main (Error (lit "Erreur : " ++ exn_str rt e)))))
  else ret tt.

(** One line of the list of word weights. *)
Definition render_weight (item : pyval) : M unit :=
  weight <- lift (subscript item (lit "weight")) ;;
  positive <- lift (gt_zero weight) ;;
  let color := if positive then lit "green" else lit "red" in
  word <- lift (subscript item (lit "word")) ;;
  weight' <- lift (subscript item (lit "weight")) ;;
  shown <- fmt_f3 weight' ;;
  emit (Render InExpander
          (Markdown (lit "- <span style='color:" ++ color ++ lit "'>" ++ format_plain rt word
                     ++ lit "</span> → " ++ shown) true)).

(** Whether [st.components.v1.html(v, ...)] takes [v]: a string is
    taken; for another object the runtime says whether the call raises. *)
Definition html_check (v : pyval) : exn + unit :=
  match v with
  | PyStr _ => inr tt
  | _ =>
      match html_rejects rt v with
      | Some e => inl e
      | None => inr tt
      end
  end.

(** [st.components.v1.html(v, height=400, scrolling=True)] *)
Definition components_html (v : pyval) : M unit :=
  lift (html_check v) ;;
  emit (Render Main (HtmlComponent v 400 true)).

(** What is drawn for the decoded body of a 200 answer of /explain. *)
Definition render_explanation (explanation_data : pyval) : M unit :=
  emit (Render Main (Subheader (lit "📘 Explication LIME"))) ;;
  html <- lift (subscript explanation_data (lit "html_explanation")) ;;
  components_html html ;;
  emit (Render Main (Expander (lit "📊 Détails des poids des mots"))) ;;
  explanation <- lift (subscript explanation_data (lit "explanation")) ;;
  items <- lift (iterate explanation) ;;
  for_each items render_weight.

(** [if explain_btn and text_valid: ...] *)
Definition explain_section (explain_btn valid : bool) (tweet_text : str) : M unit :=
  if explain_btn && valid then
    with_spinner (lit "Génération de l’explication LIME... (30–60s)")
      (try_except
         (resp <- requests_post (API_URL ++ lit "/explain")
                    (PyDict [(lit "text", PyStr tweet_text)]) ;;
          if (status_code resp =? 200)%Z
          then explanation_data <- lift (json resp) ;; render_explanation explanation_data
          else emit (Render Main (Error (lit "⚠️ Erreur lors de la génération de l’explication LIME."))))
         (fun e => emit (Render Main (Error (lit "Erreur : " ++ exn_str rt e)))))
  else ret tt.

Definition footer : M unit :=
  emit (Render Main Divider) ;;
  emit (Render Main (Caption (lit "🧠 Application développée dans le cadre du projet MLOps — Streamlit + FastAPI + MLflow + LIME"))).

(** Everything after the input box, for the text it returned. *)
Definition body (tweet_text : str) : M unit :=
  let char_count := len tweet_text in
  counter char_count ;;
  let valid := text_valid char_count in
  btns <- action_buttons valid ;;
  let '(predict_btn, explain_btn, clear_btn) := btns in
  clear_action clear_btn ;;
  predict_section predict_btn valid tweet_text ;;
  explain_section explain_btn valid tweet_text ;;
  footer.

(** Everything up to and including the input box; returns its text. *)
Definition front_matter : M str :=
  page_config ;;
  api_banner ;;
  sidebar ;;
  heading ;;
  health_probe ;;
  input_zone.

(** The file, top to bottom. *)
Definition script : M unit :=
  tweet_text <- front_matter ;;
  body tweet_text.

(** One run, started in the session state the earlier runs left. *)
Definition run : (stop + unit) * session * list event :=
  script (session0 inp).

End Script.

End App.

(* ===================================================================== *)
(** ** Observations on a run, used to state the properties *)
(* ===================================================================== *)
Import Py St App.

(** The requests the script can send. *)
Definition health_request (inp : inputs) : request :=
  Get (API_URL inp ++ lit "/health").

Definition predict_request (inp : inputs) : request :=
  Post (API_URL inp ++ lit "/predict") (PyDict [(lit "text", PyStr (text_area_value inp))]).

Definition explain_request (inp : inputs) : request :=
  Post (API_URL inp ++ lit "/explain") (PyDict [(lit "text", PyStr (text_area_value inp))]).

(** The length of the text in the input box, and whether it may be sent. *)
Definition char_count (inp : inputs) : nat := len (text_area_value inp).

Definition valid (inp : inputs) : bool := text_valid (char_count inp).

(** The counter and the three buttons, as [body] draws them first. *)
Definition counter_and_buttons (inp : inputs) : list event :=
  [Render Main (Markdown (counter_markup (char_count inp)) true);
   Render (Column 1) (Button (lit "🎯 Prédire le sentiment") (negb (valid inp)) true);
   Render (Column 2) (Button (lit "🔍 LIME (30-60s)") (negb (valid inp)) false);
   Render (Column 3) (Button (lit "🗑️ Effacer") false false)].

(** The buttons of a run, in order, each with whether it is enabled. *)
Fixpoint buttons_drawn (evs : list event) : list (str * bool) :=
  match evs with
  | [] => []
  | Render _ (Button label disabled _) :: evs' => (label, negb disabled) :: buttons_drawn evs'
  | _ :: evs' => buttons_drawn evs'
  end.

Definition is_button (e : event) : bool :=
  match e with Render _ (Button _ _ _) => true | _ => false end.

Definition is_post (e : event) : bool :=
  match e with Send (Post _ _) => true | _ => false end.

Definition is_warning (e : event) : bool :=
  match e with Render _ (Warning _) => true | _ => false end.

(** A counter markup is in a colour when it opens a span of that colour. *)
Definition has_color (colour markup : str) : bool :=
  startswith markup (lit "<span style='color:" ++ colour ++ lit "'>").

Definition is_red_counter (e : event) : bool :=
  match e with
  | Render _ (Markdown body _) => has_color (lit "red") body
  | _ => false
  end.

(** [prefix] matches the start of [s] up to the case of ASCII letters. *)
Fixpoint startswith_nocase (s prefix : str) {struct prefix} : bool :=
  match prefix with
  | [] => true
  | p :: prefix' =>
      match s with
      | [] => false
      | c :: s' => (c <? 128)%N && (ascii_lower c =? ascii_lower p)%N && startswith_nocase s' prefix'
      end
  end.

(** [data] has the shape of a PredictionResult: the four keys are there,
    the sentiment is a string and the three numbers are floats. *)
Definition is_prediction (data : pyval) (sentiment : str) (confidence prob_pos prob_neg : float) : Prop :=
  subscript data (lit "sentiment") = inr (PyStr sentiment) /\
  subscript data (lit "confidence") = inr (PyFloat confidence) /\
  subscript data (lit "probability_positive") = inr (PyFloat prob_pos) /\
  subscript data (lit "probability_negative") = inr (PyFloat prob_neg).

(** The two badges of the predict renderer and its chart. *)
Definition positive_badge (confidence : float) : event :=
  Render Main (Success (lit "😊 **POSiTIF** (" ++ format_pct 1 confidence ++ lit ")")).

Definition negative_badge (confidence : float) : event :=
  Render Main (Error (lit "😞 **NÉGATIF** (" ++ format_pct 1 confidence ++ lit ")")).

Definition chart (prob_neg prob_pos : float) : event :=
  Render Main (PlotlyChart (probability_chart (PyFloat prob_neg) (PyFloat prob_pos))).

(** The messages of the health probe. *)
Definition connected_badge : event :=
  Render Main (Success (lit "✅ API connectée avec succès")).

Definition unreachable_badge : event :=
  Render Main (Error (lit "⚠️ API injoignable")).

Definition connection_error_badge : event :=
  Render Main (Error (lit "❌ Impossible de se connecter à l’API. Vérifiez qu’elle est lancée.")).

(** [mid] is drawn, in this order and without anything in between, in the
    course of [evs]. *)
Definition draws (evs mid : list event) : Prop :=
  exists before after, evs = before ++ mid ++ after.

(** What the predict action draws around a badge and a chart. *)
Definition prediction_drawn (inp : inputs) (badge : event) (prob_neg prob_pos : float) : list event :=
  [Render Main (Spinner (lit "Analyse du tweet en cours..."));
   Send (predict_request inp);
   badge;
   chart prob_neg prob_pos;
   SpinnerCleared].

(** An [st.error] box. *)
Definition is_error_box (e : event) : bool :=
  match e with Render _ (Error _) => true | _ => false end.

(** *** Predicates on computations *)

(** Every event [m] emits passes the test [p], whatever the session. *)
Definition only (p : event -> bool) {A} (m : M A) : Prop :=
  forall s, forallb p (events (m s)) = true.

(** [m] never stops for a rerun. *)
Definition no_rerun {A} (m : M A) : Prop :=
  forall s, outcome (m s) <> inl Rerun.

(** *** Sample data *)

(** A runtime for concrete runs: code points outside ASCII are left as
    they are, exceptions and objects print as a fixed text, the HTML
    component raises TypeError on whatever is not a string, and the bar
    chart raises ValueError on a probability that is a list or a dict. *)
Definition sample_runtime : runtime := {|
  unicode_lower := fun _ c _ => [c];
  exn_str := fun e => match e with
                      | KeyError k => lit "'" ++ k ++ lit "'"
                      | RequestException d => d
                      | JSONDecodeError d => d
                      | _ => lit "error"
                      end;
  repr := fun _ => lit "<object>";
  html_rejects := fun _ => Some TypeError;
  bar_rejects := fun n p =>
    match n, p with
    | PyList _, _ | PyDict _, _ | _, PyList _ | _, PyDict _ => Some ValueError
    | _, _ => None
    end
|}.

Definition ok (body : pyval) : exn + response :=
  inr {| status_code := 200; json := inr body |}.

(** Decimal literals stand for the nearest binary64 value, as when the
    JSON text of a body is parsed. *)
Definition mock_predict_body : pyval :=
  PyDict [(lit "sentiment", PyStr (lit "positive"));
          (lit "confidence", PyFloat 0.87);
          (lit "probability_positive", PyFloat 0.87);
          (lit "probability_negative", PyFloat 0.13)].

Definition mock_negative_body : pyval :=
  PyDict [(lit "sentiment", PyStr (lit "Negative"));
          (lit "confidence", PyFloat 0.91);
          (lit "probability_positive", PyFloat 0.09);
          (lit "probability_negative", PyFloat 0.91)].

Definition mock_neutral_body : pyval :=
  PyDict [(lit "sentiment", PyStr (lit "neutral"));
          (lit "confidence", PyFloat 0.5);
          (lit "probability_positive", PyFloat 0.5);
          (lit "probability_negative", PyFloat 0.5)].

Definition mock_explanation : pyval :=
  PyList [PyDict [(lit "word", PyStr (lit "love")); (lit "weight", PyFloat 0.42)];
          PyDict [(lit "word", PyStr (lit "bad")); (lit "weight", PyFloat (-0.31))]].

Definition mock_explain_body : pyval :=
  PyDict [(lit "html_explanation", PyStr (lit "<div>lime</div>"));
          (lit "explanation", mock_explanation)].

(** An item of an explanation: a word and its weight. *)
Definition weighted_word (word : str) (weight : float) : pyval :=
  PyDict [(lit "word", PyStr word); (lit "weight", PyFloat weight)].

(** A network whose backend is healthy and answers /predict and /explain
    with the given bodies. *)
Definition mock_network (predict_body explain_body : pyval) (r : request) : exn + response :=
  match r with
  | Get _ => inr {| status_code := 200; json := inl (JSONDecodeError []) |}
  | Post url _ =>
      if contains url (lit "/predict") then ok predict_body else ok explain_body
  end.

(** A run in which the user typed a text and pressed one action button. *)
Definition sample_inputs (text : str) (predict explain : bool) (net : request -> exn + response) : inputs := {|
  getenv_API_URL := None;
  session0 := None;
  selectbox_value := lit "";
  text_area_value := text;
  predict_pressed := predict;
  explain_pressed := explain;
  clear_pressed := false;
  network := net
|}.

(** *** Further observations *)

(** The values [f] picks out of the events, in order. *)
Fixpoint collect {A} (f : event -> option A) (evs : list event) : list A :=
  match evs with
  | [] => []
  | e :: evs' =>
      match f e with
      | Some a => a :: collect f evs'
      | None => collect f evs'
      end
  end.

Definition is_none {A} (o : option A) : bool :=
  match o with None => true | Some _ => false end.

(** The requests a run sends. *)
Definition sent (e : event) : option request :=
  match e with Send r => Some r | _ => None end.

Definition requests_sent (evs : list event) : list request := collect sent evs.

(** The text the input box is drawn with. *)
Definition input_default (e : event) : option str :=
  match e with Render _ (TextArea _ value _ _ _) => Some value | _ => None end.

Definition input_defaults (evs : list event) : list str := collect input_default evs.

(** [m] hands the session state on as it received it. *)
Definition keeps_session {A} (m : M A) : Prop :=
  forall s, final_session (m s) = s.

(** The conditions under which each action runs. *)
Definition predict_taken (inp : inputs) : Prop :=
  clear_pressed inp = false /\ predict_pressed inp = true
  /\ 0 < len (text_area_value inp) <= 280.

Definition explain_taken (inp : inputs) : Prop :=
  clear_pressed inp = false /\ explain_pressed inp = true
  /\ 0 < len (text_area_value inp) <= 280.

(** The box the two [except] handlers draw. *)
Definition error_box (rt : runtime) (e : exn) : event :=
  Render Main (Error (lit "Erreur : " ++ exn_str rt e)).

(** The health badge that says the API answered. *)
Definition is_connected_badge (e : event) : bool :=
  match e with
  | Render _ (Success body) => str_eqb body (lit "✅ API connectée avec succès")
  | _ => false
  end.

(** The line of the weight list for a word and its weight. *)
Definition word_line (word : str) (weight : float) : event :=
  Render InExpander
    (Markdown (lit "- <span style='color:"
               ++ (if (0 <? weight)%float then lit "green" else lit "red")
               ++ lit "'>" ++ word ++ lit "</span> → " ++ format_f 3 weight) true).

(** [item] gives [word] under "word" and the float [weight] under
    "weight", whatever else it holds and in whatever order. *)
Definition is_weighted_word (item : pyval) (word : str) (weight : float) : Prop :=
  subscript item (lit "word") = inr (PyStr word)
  /\ subscript item (lit "weight") = inr (PyFloat weight).

Definition weighted_items (items : list pyval) (pairs : list (str * float)) : Prop :=
  Forall2 (fun item p => is_weighted_word item (fst p) (snd p)) items pairs.

Definition weighted_words (pairs : list (str * float)) : list pyval :=
  map (fun p => weighted_word (fst p) (snd p)) pairs.

Definition word_lines (pairs : list (str * float)) : list event :=
  map (fun p => word_line (fst p) (snd p)) pairs.

(** What the explain action draws around the elements of an answer. *)
Definition explanation_around (inp : inputs) (mid : list event) : list event :=
  [Render Main (Spinner (lit "Génération de l’explication LIME... (30–60s)"));
   Send (explain_request inp)]
  ++ mid ++ [SpinnerCleared].

Definition explanation_heading : event :=
  Render Main (Subheader (lit "📘 Explication LIME")).

Definition explanation_frame (html : pyval) : list event :=
  [Render Main (HtmlComponent html 400 true);
   Render Main (Expander (lit "📊 Détails des poids des mots"))].

(** What the predict action draws around the elements of an answer. *)
Definition prediction_around (inp : inputs) (mid : list event) : list event :=
  [Render Main (Spinner (lit "Analyse du tweet en cours..."));
   Send (predict_request inp)]
  ++ mid ++ [SpinnerCleared].

(** The keys the predict renderer reads, in the order it reads them. *)
Definition prediction_keys : list str :=
  [lit "sentiment"; lit "confidence"; lit "probability_positive"; lit "probability_negative"].

(** The first of [keys] a dict does not have. *)
Fixpoint first_missing (keys : list str) (items : list (str * pyval)) : option str :=
  match keys with
  | [] => None
  | k :: keys' =>
      match lookup k items with
      | None => Some k
      | Some _ => first_missing keys' items
      end
  end.

(** What the input box is drawn with: the example picked in this run, or
    else what the session state holds, or else nothing. *)
Definition expected_default (inp : inputs) : str :=
  if truthy (selectbox_value inp) then selectbox_value inp
  else match session0 inp with Some v => v | None => lit "" end.

(** The session state after the sidebar. *)
Definition session_after_sidebar (inp : inputs) (s : session) : session :=
  if truthy (selectbox_value inp) then Some (selectbox_value inp) else s.

(** A healthy backend whose answers to /predict and /explain are given. *)
Definition scripted_network (on_predict on_explain : exn + response) (r : request) : exn + response :=
  match r with
  | Get _ => inr {| status_code := 200; json := inl (JSONDecodeError []) |}
  | Post url _ => if contains url (lit "/predict") then on_predict else on_explain
  end.

(** Bodies of answers that depart from the expected shapes. *)
Definition mock_nested_body : pyval :=
  PyDict [(lit "sentiment", PyStr (lit "positive"));
          (lit "confidence", PyInt 1);
          (lit "probability_positive", PyList [PyFloat 0.9]);
          (lit "probability_negative", PyList [PyFloat 0.1])].

Definition mock_partial_body : pyval :=
  PyDict [(lit "sentiment", PyStr (lit "positive"));
          (lit "probability_positive", PyFloat 0.9)].

Definition explain_body (html explanation : pyval) : pyval :=
  PyDict [(lit "html_explanation", html); (lit "explanation", explanation)].

Definition mock_annotated_explanation : pyval :=
  PyList [PyDict [(lit "weight", PyFloat 0.42); (lit "word", PyStr (lit "love"));
                  (lit "rank", PyInt 1)];
          PyDict [(lit "word", PyStr (lit "the")); (lit "weight", PyFloat 0)];
          PyDict [(lit "rank", PyInt 3); (lit "word", PyStr (lit "bad"));
                  (lit "weight", PyFloat (-0.31))]].

Definition mock_broken_explanation : pyval :=
  PyList (weighted_words [(lit "love", 0.42%float)]
          ++ PyDict [(lit "word", PyStr (lit "bad"))]
          :: weighted_words [(lit "the", 0%float)]).

(** A run with every input given. *)
Definition inputs_of (env : option str) (s0 : session) (choice text : str)
    (predict explain clear : bool) (net : request -> exn + response) : inputs := {|
  getenv_API_URL := env;
  session0 := s0;
  selectbox_value := choice;
  text_area_value := text;
  predict_pressed := predict;
  explain_pressed := explain;
  clear_pressed := clear;
  network := net
|}.

(* ===================================================================== *)
(** ** Reasoning about script computations *)
(* ===================================================================== *)

(** *** Equations of the monad *)

Lemma bind_returns {A B} (m : M A) (f : A -> M B) s a s' ev :
  m s = (inr a, s', ev) ->
  bind m f s = (outcome (f a s'), final_session (f a s'), ev ++ events (f a s')).
Proof.
  intros Hm. unfold bind. rewrite Hm.
  destruct (f a s') as [[r s''] ev']. reflexivity.
Qed.

Lemma triple_eta {A} (r : (stop + A) * session * list event) :
  r = (outcome r, final_session r, events r).
Proof. destruct r as [[o s] ev]. reflexivity. Qed.

Lemma events_bind_left {A B} (m : M A) (f : A -> M B) s e :
  In e (events (m s)) -> In e (events (bind m f s)).
Proof.
  unfold bind. destruct (m s) as [[[st | a] s'] ev]; cbn; [tauto |].
  destruct (f a s') as [[r s''] ev']. cbn. intros H. apply in_or_app. now left.
Qed.

(** *** Computations whose events all satisfy a test *)

Section Only.
Variable p : event -> bool.

Lemma only_ret {A} (a : A) : only p (ret a).
Proof. intros s. reflexivity. Qed.

Lemma only_raise {A} e : only p (@raise A e).
Proof. intros s. reflexivity. Qed.

Lemma only_lift {A} (x : exn + A) : only p (lift x).
Proof. destruct x; [apply only_raise | apply only_ret]. Qed.

Lemma only_emit e : p e = true -> only p (emit e).
Proof. intros H s. cbn. now rewrite H. Qed.

Lemma only_rerun : only p rerun.
Proof. intros s. reflexivity. Qed.

Lemma only_session_get d : only p (session_get d).
Proof. intros s. reflexivity. Qed.

Lemma only_session_set v : only p (session_set v).
Proof. intros s. reflexivity. Qed.

Lemma only_bind {A B} (m : M A) (f : A -> M B) :
  only p m -> (forall a, only p (f a)) -> only p (bind m f).
Proof.
  intros Hm Hf s. unfold bind. specialize (Hm s).
  destruct (m s) as [[[st | a] s'] ev]; cbn in *; [exact Hm |].
  specialize (Hf a s'). destruct (f a s') as [[r s''] ev']. cbn in *.
  rewrite forallb_app, Hm, Hf. reflexivity.
Qed.

Lemma only_try body handler :
  only p body -> (forall e, only p (handler e)) -> only p (try_except body handler).
Proof.
  intros Hb Hh s. unfold try_except. specialize (Hb s).
  destruct (body s) as [[[[e |] | a] s'] ev]; cbn in *; try exact Hb.
  specialize (Hh e s'). destruct (handler e s') as [[r s''] ev']. cbn in *.
  rewrite forallb_app, Hb, Hh. reflexivity.
Qed.

Lemma only_spinner text body :
  p (Render Main (Spinner text)) = true -> p SpinnerCleared = true ->
  only p body -> only p (with_spinner text body).
Proof.
  intros H1 H2 Hb s. unfold with_spinner. specialize (Hb s).
  destruct (body s) as [[r s'] ev]. cbn in *.
  rewrite H1, forallb_app, Hb. cbn. now rewrite H2.
Qed.

Lemma only_for_each {A} (items : list A) (f : A -> M unit) :
  (forall a, only p (f a)) -> only p (for_each items f).
Proof.
  intros Hf. induction items as [| a items IH]; cbn.
  - apply only_ret.
  - apply only_bind; [apply Hf | intros _; exact IH].
Qed.
End Only.

(** *** Computations that never ask for a rerun *)

Lemma no_rerun_ret {A} (a : A) : no_rerun (ret a).
Proof. intros s. discriminate. Qed.

Lemma no_rerun_lift {A} (x : exn + A) : no_rerun (lift x).
Proof. destruct x; intros s; discriminate. Qed.

Lemma no_rerun_emit e : no_rerun (emit e).
Proof. intros s. discriminate. Qed.

Lemma no_rerun_bind {A B} (m : M A) (f : A -> M B) :
  no_rerun m -> (forall a, no_rerun (f a)) -> no_rerun (bind m f).
Proof.
  intros Hm Hf s. unfold bind. specialize (Hm s).
  destruct (m s) as [[[st | a] s'] ev]; cbn in *; [congruence |].
  specialize (Hf a s'). destruct (f a s') as [[r s''] ev']. exact Hf.
Qed.

Lemma no_rerun_for_each {A} (items : list A) (f : A -> M unit) :
  (forall a, no_rerun (f a)) -> no_rerun (for_each items f).
Proof.
  intros Hf. induction items as [| a items IH]; cbn.
  - apply no_rerun_ret.
  - apply no_rerun_bind; [apply Hf | intros _; exact IH].
Qed.

(** A [try] whose handler only draws always returns. *)
Lemma try_except_returns body handler s :
  no_rerun body ->
  (forall e s', outcome (handler e s') = inr tt) ->
  outcome (try_except body handler s) = inr tt.
Proof.
  intros Hb Hh. unfold try_except. specialize (Hb s).
  destruct (body s) as [[[[e |] | []] s'] ev]; cbn in *.
  - specialize (Hh e s'). destruct (handler e s') as [[r s''] ev']. exact Hh.
  - congruence.
  - reflexivity.
Qed.

Lemma with_spinner_outcome text body s :
  outcome (with_spinner text body s) = outcome (body s).
Proof. unfold with_spinner. destruct (body s) as [[r s'] ev]. reflexivity. Qed.

Lemma with_spinner_events text body s :
  events (with_spinner text body s) =
  Render Main (Spinner text) :: events (body s) ++ [SpinnerCleared].
Proof. unfold with_spinner. destruct (body s) as [[r s'] ev]. reflexivity. Qed.

Ltac only_step :=
  match goal with
  | |- only _ (bind _ _) => apply only_bind; [| intros ?]
  | |- only _ (emit _) => apply only_emit; reflexivity
  | |- only _ (ret _) => apply only_ret
  | |- only _ (lift _) => apply only_lift
  | |- only _ rerun => apply only_rerun
  | |- only _ (session_get _) => apply only_session_get
  | |- only _ (session_set _) => apply only_session_set
  | |- only _ (try_except _ _) => apply only_try; [| intros ?]
  | |- only _ (with_spinner _ _) => apply only_spinner; [reflexivity | reflexivity |]
  | |- only _ (for_each _ _) => apply only_for_each; intros ?
  | |- only _ (if ?b then _ else _) => destruct b
  | |- only _ (let '(_, _) := ?x in _) => destruct x
  end.

Ltac no_rerun_step :=
  match goal with
  | |- no_rerun (bind _ _) => apply no_rerun_bind; [| intros ?]
  | |- no_rerun (emit _) => apply no_rerun_emit
  | |- no_rerun (ret _) => apply no_rerun_ret
  | |- no_rerun (lift _) => apply no_rerun_lift
  | |- no_rerun (for_each _ _) => apply no_rerun_for_each; intros ?
  | |- no_rerun (if ?b then _ else _) => destruct b
  end.

Lemma events_bind_right {A B} (m : M A) (f : A -> M B) s a s' ev e :
  m s = (inr a, s', ev) -> In e (events (f a s')) -> In e (events (bind m f s)).
Proof.
  intros Hm He. rewrite (bind_returns m f s a s' ev Hm). cbn.
  apply in_or_app. now right.
Qed.

(** *** The sections of the script, one by one *)

Lemma api_banner_returns inp s :
  exists ev, api_banner inp s = (inr tt, s, ev).
Proof.
  unfold api_banner, bind, emit, ret.
  destruct (contains (API_URL inp) (lit "localhost")); eexists; reflexivity.
Qed.

Lemma sidebar_returns inp s :
  exists s' ev, sidebar inp s = (inr tt, s', ev).
Proof.
  unfold sidebar, bind, emit, ret, session_set.
  destruct (truthy (selectbox_value inp)); do 2 eexists; reflexivity.
Qed.

Lemma health_probe_run inp s :
  health_probe inp s =
  (inr tt, s,
   [Send (health_request inp);
    match network inp (health_request inp) with
    | inl _ => connection_error_badge
    | inr health => if (status_code health =? 200)%Z then connected_badge else unreachable_badge
    end]).
Proof.
  unfold health_probe, requests_get, try_except, bind, emit, lift, raise, ret, health_request.
  destruct (network inp (Get (API_URL inp ++ lit "/health"))) as [e | health]; [reflexivity |].
  destruct (status_code health =? 200)%Z; reflexivity.
Qed.

Lemma front_matter_returns inp s :
  exists s' ev, front_matter inp s = (inr (text_area_value inp), s', ev).
Proof.
  unfold front_matter.
  destruct (api_banner_returns inp s) as [ev1 H1].
  destruct (sidebar_returns inp s) as [s2 [ev2 H2]].
  rewrite (bind_returns page_config _ s tt s _ eq_refl).
  rewrite (bind_returns (api_banner inp) _ s tt s ev1 H1).
  rewrite (bind_returns (sidebar inp) _ s tt s2 ev2 H2).
  rewrite (bind_returns heading _ s2 tt s2 _ eq_refl).
  rewrite (bind_returns (health_probe inp) _ s2 tt s2 _ (health_probe_run inp s2)).
  do 2 eexists. reflexivity.
Qed.

(** What the health probe draws is part of the front matter. *)
Lemma front_matter_shows_health inp s e :
  In e (events (health_probe inp None)) -> In e (events (front_matter inp s)).
Proof.
  intros He. unfold front_matter.
  destruct (api_banner_returns inp s) as [ev1 H1].
  destruct (sidebar_returns inp s) as [s2 [ev2 H2]].
  eapply events_bind_right; [reflexivity |].
  eapply events_bind_right; [exact H1 |].
  eapply events_bind_right; [exact H2 |].
  eapply events_bind_right; [reflexivity |].
  apply events_bind_left.
  rewrite health_probe_run in *. exact He.
Qed.

Lemma fmt_pct1_no_rerun v : no_rerun (fmt_pct1 v).
Proof. unfold fmt_pct1. repeat no_rerun_step. Qed.

Lemma fmt_f3_no_rerun v : no_rerun (fmt_f3 v).
Proof. unfold fmt_f3. repeat no_rerun_step. Qed.

Lemma render_prediction_no_rerun rt data : no_rerun (render_prediction rt data).
Proof.
  unfold render_prediction.
  repeat first [apply fmt_pct1_no_rerun | no_rerun_step].
Qed.

Lemma render_weight_no_rerun rt item : no_rerun (render_weight rt item).
Proof.
  unfold render_weight.
  repeat first [apply fmt_f3_no_rerun | no_rerun_step].
Qed.

Lemma render_explanation_no_rerun rt data : no_rerun (render_explanation rt data).
Proof.
  unfold render_explanation, components_html.
  repeat first [apply render_weight_no_rerun | no_rerun_step].
Qed.

Lemma requests_post_no_rerun inp url body : no_rerun (requests_post inp url body).
Proof. unfold requests_post. repeat no_rerun_step. Qed.

(** Neither action can end the run: whatever the network answers, the
    section returns. *)
Lemma predict_section_returns rt inp btn ok txt s :
  outcome (predict_section rt inp btn ok txt s) = inr tt.
Proof.
  unfold predict_section. destruct (btn && ok); [| reflexivity].
  rewrite with_spinner_outcome. apply try_except_returns; [| reflexivity].
  repeat first [apply requests_post_no_rerun | apply render_prediction_no_rerun | no_rerun_step].
Qed.

Lemma explain_section_returns rt inp btn ok txt s :
  outcome (explain_section rt inp btn ok txt s) = inr tt.
Proof.
  unfold explain_section. destruct (btn && ok); [| reflexivity].
  rewrite with_spinner_outcome. apply try_except_returns; [| reflexivity].
  repeat first [apply requests_post_no_rerun | apply render_explanation_no_rerun | no_rerun_step].
Qed.

Lemma body_cleared rt inp s :
  clear_pressed inp = true ->
  body rt inp (text_area_value inp) s = (inl Rerun, Some (lit ""), counter_and_buttons inp).
Proof.
  intros Hc. unfold body, counter, action_buttons, clear_action, bind, emit, ret, rerun, session_set.
  rewrite Hc. reflexivity.
Qed.

Lemma body_continues rt inp s :
  clear_pressed inp = false ->
  exists s',
    outcome (body rt inp (text_area_value inp) s) = inr tt /\
    events (body rt inp (text_area_value inp) s) =
      counter_and_buttons inp
      ++ events (predict_section rt inp (predict_pressed inp) (valid inp) (text_area_value inp) s)
      ++ events (explain_section rt inp (explain_pressed inp) (valid inp) (text_area_value inp) s')
      ++ events (footer None).
Proof.
  intros Hc.
  pose proof (predict_section_returns rt inp (predict_pressed inp) (valid inp) (text_area_value inp) s) as Hp.
  pose proof (triple_eta (predict_section rt inp (predict_pressed inp) (valid inp) (text_area_value inp) s)) as Ep.
  rewrite Hp in Ep.
  set (s1 := final_session (predict_section rt inp (predict_pressed inp) (valid inp) (text_area_value inp) s)) in *.
  pose proof (explain_section_returns rt inp (explain_pressed inp) (valid inp) (text_area_value inp) s1) as He.
  pose proof (triple_eta (explain_section rt inp (explain_pressed inp) (valid inp) (text_area_value inp) s1)) as Ee.
  rewrite He in Ee.
  exists s1. unfold body.
  rewrite (bind_returns (counter _) _ s tt s _ eq_refl).
  rewrite (bind_returns (action_buttons inp _) _ s _ s _ eq_refl).
  cbv beta iota. rewrite Hc.
  rewrite (bind_returns (clear_action false) _ s tt s _ eq_refl).
  rewrite (bind_returns _ _ s tt s1 _ Ep).
  rewrite (bind_returns _ _ s1 tt _ _ Ee).
  split; reflexivity.
Qed.

(** *** The shape of a run *)

Lemma run_cleared rt inp :
  clear_pressed inp = true ->
  outcome (run rt inp) = inl Rerun /\
  events (run rt inp) = events (front_matter inp (session0 inp)) ++ counter_and_buttons inp.
Proof.
  intros Hc. unfold run, script.
  destruct (front_matter_returns inp (session0 inp)) as [s1 [ev1 H1]].
  rewrite (bind_returns _ _ _ _ _ _ H1), H1, (body_cleared rt inp s1 Hc).
  split; reflexivity.
Qed.

Lemma run_continues rt inp :
  clear_pressed inp = false ->
  exists s s',
    outcome (run rt inp) = inr tt /\
    events (run rt inp) =
      events (front_matter inp (session0 inp))
      ++ counter_and_buttons inp
      ++ events (predict_section rt inp (predict_pressed inp) (valid inp) (text_area_value inp) s)
      ++ events (explain_section rt inp (explain_pressed inp) (valid inp) (text_area_value inp) s')
      ++ events (footer None).
Proof.
  intros Hc. unfold run, script.
  destruct (front_matter_returns inp (session0 inp)) as [s1 [ev1 H1]].
  destruct (body_continues rt inp s1 Hc) as [s' [Ho He]].
  exists s1, s'. rewrite (bind_returns _ _ _ _ _ _ H1), H1.
  split; [exact Ho |].
  transitivity (ev1 ++ events (body rt inp (text_area_value inp) s1)); [reflexivity |].
  rewrite He. reflexivity.
Qed.

Ltac unfold_sections :=
  unfold front_matter, page_config, api_banner, sidebar, heading, health_probe,
    input_zone, predict_section, explain_section, render_prediction,
    render_explanation, render_weight, components_html, fmt_pct1, fmt_f3, footer,
    requests_get, requests_post.

Ltac only_auto := unfold_sections; repeat (cbv beta; only_step).

(** Events that are not of a given kind, section by section. *)

Lemma front_matter_no_button inp : only (fun e => negb (is_button e)) (front_matter inp).
Proof. only_auto. Qed.

Lemma predict_section_no_button rt inp btn ok txt :
  only (fun e => negb (is_button e)) (predict_section rt inp btn ok txt).
Proof. only_auto. Qed.

Lemma explain_section_no_button rt inp btn ok txt :
  only (fun e => negb (is_button e)) (explain_section rt inp btn ok txt).
Proof. only_auto. Qed.

Lemma front_matter_no_post inp : only (fun e => negb (is_post e)) (front_matter inp).
Proof. only_auto. Qed.

Lemma front_matter_no_red_counter inp : only (fun e => negb (is_red_counter e)) (front_matter inp).
Proof. only_auto. Qed.

Lemma predict_section_no_red_counter rt inp btn ok txt :
  only (fun e => negb (is_red_counter e)) (predict_section rt inp btn ok txt).
Proof. only_auto. Qed.

Lemma explain_section_no_red_counter rt inp btn ok txt :
  only (fun e => negb (is_red_counter e)) (explain_section rt inp btn ok txt).
Proof. only_auto. Qed.

Lemma predict_section_no_warning rt inp btn ok txt :
  only (fun e => negb (is_warning e)) (predict_section rt inp btn ok txt).
Proof. only_auto. Qed.

Lemma explain_section_no_warning rt inp btn ok txt :
  only (fun e => negb (is_warning e)) (explain_section rt inp btn ok txt).
Proof. only_auto. Qed.

Lemma buttons_drawn_app l1 l2 :
  buttons_drawn (l1 ++ l2) = buttons_drawn l1 ++ buttons_drawn l2.
Proof.
  induction l1 as [| e l1 IH]; [reflexivity |].
  destruct e as [pl w | r |]; cbn; try exact IH.
  destruct w; cbn; rewrite ?IH; reflexivity.
Qed.

Lemma buttons_drawn_none l :
  forallb (fun e => negb (is_button e)) l = true -> buttons_drawn l = [].
Proof.
  induction l as [| e l IH]; [reflexivity |]. cbn.
  destruct e as [pl w | r |]; cbn; try exact IH.
  destruct w; cbn; try exact IH. discriminate.
Qed.

Lemma text_valid_iff n : text_valid n = true <-> 0 < n <= 280.
Proof.
  unfold text_valid. rewrite andb_true_iff, Nat.ltb_lt, Nat.leb_le. tauto.
Qed.

Lemma buttons_of_body inp :
  buttons_drawn (counter_and_buttons inp) =
  [(lit "🎯 Prédire le sentiment", valid inp);
   (lit "🔍 LIME (30-60s)", valid inp);
   (lit "🗑️ Effacer", true)].
Proof. cbn [counter_and_buttons buttons_drawn]. rewrite negb_involutive. reflexivity. Qed.

Lemma buttons_of_run rt inp :
  buttons_drawn (events (run rt inp)) = buttons_drawn (counter_and_buttons inp).
Proof.
  destruct (clear_pressed inp) eqn:Hc.
  - destruct (run_cleared rt inp Hc) as [_ ->].
    rewrite buttons_drawn_app, (buttons_drawn_none _ (front_matter_no_button inp _)).
    reflexivity.
  - destruct (run_continues rt inp Hc) as [s [s' [_ ->]]].
    rewrite !buttons_drawn_app.
    rewrite (buttons_drawn_none _ (front_matter_no_button inp _)).
    rewrite (buttons_drawn_none _ (predict_section_no_button rt inp _ _ _ _)).
    rewrite (buttons_drawn_none _ (explain_section_no_button rt inp _ _ _ _)).
    cbn [app]. rewrite app_nil_r. reflexivity.
Qed.

Lemma no_post_when_invalid rt inp :
  valid inp = false ->
  forallb (fun e => negb (is_post e)) (events (run rt inp)) = true.
Proof.
  intros Hv. destruct (clear_pressed inp) eqn:Hc.
  - destruct (run_cleared rt inp Hc) as [_ ->].
    rewrite forallb_app, (front_matter_no_post inp _). reflexivity.
  - destruct (run_continues rt inp Hc) as [s [s' [_ ->]]].
    rewrite Hv. unfold predict_section, explain_section.
    rewrite !andb_false_r, !forallb_app, (front_matter_no_post inp _). reflexivity.
Qed.

(** C2. Whatever the text in the input box, of length [L], a run draws the
    three buttons Predict, Explain and Clear, the first two enabled exactly
    when [0 < L <= 280]; and when they are disabled the run sends no POST
    request at all, so neither /predict nor /explain is called. *)
Theorem action_buttons_enabled_iff_valid_length rt inp :
  let L := len (text_area_value inp) in
  let evs := events (run rt inp) in
  exists enabled,
    buttons_drawn evs =
      [(lit "🎯 Prédire le sentiment", enabled);
       (lit "🔍 LIME (30-60s)", enabled);
       (lit "🗑️ Effacer", true)]
    /\ (enabled = true <-> 0 < L <= 280)
    /\ (enabled = false -> forall url body, ~ In (Send (Post url body)) evs).
Proof.
  intros L evs. exists (valid inp). split; [| split].
  - unfold evs. rewrite buttons_of_run. apply buttons_of_body.
  - apply text_valid_iff.
  - intros Hv url body Hin.
    pose proof (no_post_when_invalid rt inp Hv) as Hall.
    rewrite forallb_forall in Hall. specialize (Hall _ Hin). discriminate.
Qed.

(** *** The character counter *)


Lemma counter_green n : n < 240 -> counter_markup n =
  lit "<span style='color:green'>" ++ str_of_nat n ++ lit "/280</span>".
Proof. intros H. unfold counter_markup. apply Nat.ltb_lt in H. now rewrite H. Qed.

Lemma counter_orange n : 240 <= n <= 280 -> counter_markup n =
  lit "<span style='color:orange'>" ++ str_of_nat n ++ lit "/280</span>".
Proof.
  intros [H1 H2]. unfold counter_markup.
  apply Nat.ltb_ge in H1. apply Nat.leb_le in H2. now rewrite H1, H2.
Qed.

Lemma counter_red n : 280 < n -> counter_markup n =
  lit "<span style='color:red'>" ++ str_of_nat n ++ lit "/280</span>".
Proof.
  intros H. unfold counter_markup.
  assert (H1 : (n <? 240) = false) by (apply Nat.ltb_ge; lia).
  assert (H2 : (n <=? 280) = false) by (apply Nat.leb_gt; lia).
  now rewrite H1, H2.
Qed.

(** The three ranges of the counter, by cases on the length. *)
Lemma counter_cases n :
  (n < 240 /\ has_color (lit "green") (counter_markup n) = true
           /\ has_color (lit "orange") (counter_markup n) = false
           /\ has_color (lit "red") (counter_markup n) = false) \/
  (240 <= n <= 280 /\ has_color (lit "green") (counter_markup n) = false
           /\ has_color (lit "orange") (counter_markup n) = true
           /\ has_color (lit "red") (counter_markup n) = false) \/
  (280 < n /\ has_color (lit "green") (counter_markup n) = false
           /\ has_color (lit "orange") (counter_markup n) = false
           /\ has_color (lit "red") (counter_markup n) = true).
Proof.
  destruct (Nat.lt_ge_cases n 240) as [H | H].
  - left. rewrite (counter_green n H). repeat split; try assumption; reflexivity.
  - destruct (Nat.le_gt_cases n 280) as [H' | H'].
    + right; left. rewrite (counter_orange n (conj H H')). repeat split; try assumption; reflexivity.
    + right; right. rewrite (counter_red n H'). repeat split; try assumption; reflexivity.
Qed.


Lemma no_red_counter_when_capped rt inp :
  char_count inp <= 280 ->
  forallb (fun e => negb (is_red_counter e)) (events (run rt inp)) = true.
Proof.
  intros Hcap.
  assert (Hcb : forallb (fun e => negb (is_red_counter e)) (counter_and_buttons inp) = true).
  { cbn [counter_and_buttons forallb is_red_counter].
    destruct (counter_cases (char_count inp)) as [[_ [_ [_ R]]] | [[_ [_ [_ R]]] | [H _]]];
      [rewrite R; reflexivity | rewrite R; reflexivity | lia]. }
  destruct (clear_pressed inp) eqn:Hc.
  - destruct (run_cleared rt inp Hc) as [_ ->].
    rewrite forallb_app, (front_matter_no_red_counter inp _), Hcb. reflexivity.
  - destruct (run_continues rt inp Hc) as [s [s' [_ ->]]].
    rewrite !forallb_app, (front_matter_no_red_counter inp _), Hcb.
    rewrite (predict_section_no_red_counter rt inp _ _ _ _).
    rewrite (explain_section_no_red_counter rt inp _ _ _ _).
    reflexivity.
Qed.

(** C4. When the input box keeps its text within 280 characters, the
    counter a run draws is not the red one, and no element of the run is a
    red counter. *)
Theorem red_counter_unreachable rt inp :
  len (text_area_value inp) <= 280 ->
  has_color (lit "red") (counter_markup (len (text_area_value inp))) = false
  /\ forall e, In e (events (run rt inp)) -> is_red_counter e = false.
Proof.
  intros Hcap. split.
  - destruct (counter_cases (len (text_area_value inp)))
      as [[_ [_ [_ R]]] | [[_ [_ [_ R]]] | [H _]]]; [exact R | exact R | lia].
  - intros e Hin.
    pose proof (no_red_counter_when_capped rt inp Hcap) as Hall.
    rewrite forallb_forall in Hall. specialize (Hall e Hin).
    now apply negb_true_iff in Hall.
Qed.

Lemma red_counter_unreachable_witness :
  let inp := sample_inputs (lit "J'adore ce produit") false false
               (mock_network mock_predict_body mock_explain_body) in
  len (text_area_value inp) <= 280
  /\ has_color (lit "red") (counter_markup (len (text_area_value inp))) = false
  /\ forall e, In e (events (run sample_runtime inp)) -> is_red_counter e = false.
Proof.
  intros inp.
  assert (Hcap : len (text_area_value inp) <= 280) by (cbn; lia).
  split; [exact Hcap | exact (red_counter_unreachable sample_runtime inp Hcap)].
Defined.

(** *** The health probe *)

Lemma health_in_run rt inp e :
  In e (events (health_probe inp None)) -> In e (events (run rt inp)).
Proof.
  intros He. apply (front_matter_shows_health inp (session0 inp)) in He.
  destruct (clear_pressed inp) eqn:Hc.
  - destruct (run_cleared rt inp Hc) as [_ ->]. apply in_or_app. now left.
  - destruct (run_continues rt inp Hc) as [s [s' [_ ->]]]. apply in_or_app. now left.
Qed.

Lemma health_probe_connection_error inp s e :
  network inp (health_request inp) = inl e ->
  events (health_probe inp s) = [Send (health_request inp); connection_error_badge].
Proof. intros H. rewrite health_probe_run, H. reflexivity. Qed.

Lemma health_probe_unreachable inp s health :
  network inp (health_request inp) = inr health -> status_code health <> 200%Z ->
  events (health_probe inp s) = [Send (health_request inp); unreachable_badge].
Proof.
  intros H Hs. rewrite health_probe_run, H.
  apply Z.eqb_neq in Hs. rewrite Hs. reflexivity.
Qed.

(** C7. On the health probe a response whose status is not 200 draws the
    unreachable badge and nothing else, a transport exception draws the
    connection-error badge and nothing else, each is part of the run, and
    the two badges are different elements. *)
Theorem health_probe_failures_are_distinct rt inp :
  (forall health,
     network inp (health_request inp) = inr health -> status_code health <> 200%Z ->
     (forall s, events (health_probe inp s) = [Send (health_request inp); unreachable_badge])
     /\ In unreachable_badge (events (run rt inp)))
  /\ (forall e,
     network inp (health_request inp) = inl e ->
     (forall s, events (health_probe inp s) = [Send (health_request inp); connection_error_badge])
     /\ In connection_error_badge (events (run rt inp)))
  /\ unreachable_badge <> connection_error_badge.
Proof.
  split; [| split].
  - intros health H Hs. split.
    + intros s. exact (health_probe_unreachable inp s health H Hs).
    + apply health_in_run. rewrite (health_probe_unreachable inp None health H Hs).
      right. left. reflexivity.
  - intros e H. split.
    + intros s. exact (health_probe_connection_error inp s e H).
    + apply health_in_run. rewrite (health_probe_connection_error inp None e H).
      right. left. reflexivity.
  - unfold unreachable_badge, connection_error_badge. intros Heq.
    injection Heq as Heq. vm_compute in Heq. discriminate.
Qed.

(** *** The predict and explain actions *)

(** What the predict action draws when it is taken, by what the network
    and the handler of the answer give. *)
Lemma predict_section_taken rt inp s :
  events (predict_section rt inp true true (text_area_value inp) s) =
  Render Main (Spinner (lit "Analyse du tweet en cours..."))
  :: Send (predict_request inp)
  :: match network inp (predict_request inp) with
     | inl e => [Render Main (Error (lit "Erreur : " ++ exn_str rt e))]
     | inr response =>
         if (status_code response =? 200)%Z
         then events (try_except (data <- lift (json response) ;; render_prediction rt data)
                        (fun e => emit (Render Main (Error (lit "Erreur : " ++ exn_str rt e)))) s)
         else [Render Main (Error (lit "Erreur lors de la requête à l’API."))]
     end
  ++ [SpinnerCleared].
Proof.
  unfold predict_section. cbn [andb]. rewrite with_spinner_events.
  unfold try_except at 1, requests_post, predict_request.
  unfold bind at 1 2, emit at 1, lift at 1.
  destruct (network inp _) as [e | response]; [reflexivity |].
  unfold ret at 1.
  destruct (status_code response =? 200)%Z.
  - unfold try_except.
    destruct (bind (lift (json response)) _ s) as [[[[e |] | []] s1] ev1]; reflexivity.
  - reflexivity.
Qed.

Lemma explain_section_taken rt inp s :
  events (explain_section rt inp true true (text_area_value inp) s) =
  Render Main (Spinner (lit "Génération de l’explication LIME... (30–60s)"))
  :: Send (explain_request inp)
  :: match network inp (explain_request inp) with
     | inl e => [Render Main (Error (lit "Erreur : " ++ exn_str rt e))]
     | inr resp =>
         if (status_code resp =? 200)%Z
         then events (try_except (data <- lift (json resp) ;; render_explanation rt data)
                        (fun e => emit (Render Main (Error (lit "Erreur : " ++ exn_str rt e)))) s)
         else [Render Main (Error (lit "⚠️ Erreur lors de la génération de l’explication LIME."))]
     end
  ++ [SpinnerCleared].
Proof.
  unfold explain_section. cbn [andb]. rewrite with_spinner_events.
  unfold try_except at 1, requests_post, explain_request.
  unfold bind at 1 2, emit at 1, lift at 1.
  destruct (network inp _) as [e | resp]; [reflexivity |].
  unfold ret at 1.
  destruct (status_code resp =? 200)%Z.
  - unfold try_except.
    destruct (bind (lift (json resp)) _ s) as [[[[e |] | []] s1] ev1]; reflexivity.
  - reflexivity.
Qed.

(** The events of an action that is taken are part of the run. *)
Lemma predict_in_run rt inp :
  clear_pressed inp = false -> predict_pressed inp = true -> valid inp = true ->
  exists s before after,
    events (run rt inp) =
    before ++ events (predict_section rt inp true true (text_area_value inp) s) ++ after.
Proof.
  intros Hc Hp Hv. destruct (run_continues rt inp Hc) as [s [s' [_ ->]]].
  rewrite Hp, Hv. exists s. eexists. eexists.
  rewrite (app_assoc (events (front_matter _ _))). reflexivity.
Qed.

Lemma explain_in_run rt inp :
  clear_pressed inp = false -> explain_pressed inp = true -> valid inp = true ->
  exists s before after,
    events (run rt inp) =
    before ++ events (explain_section rt inp true true (text_area_value inp) s) ++ after.
Proof.
  intros Hc Hp Hv. destruct (run_continues rt inp Hc) as [s [s' [_ ->]]].
  rewrite Hp, Hv. exists s'. eexists. eexists.
  rewrite (app_assoc (events (front_matter _ _))), app_assoc. reflexivity.
Qed.

Lemma in_middle {A} (x : A) (before mid after : list A) :
  In x mid -> In x (before ++ mid ++ after).
Proof. intros H. apply in_or_app. right. apply in_or_app. now left. Qed.

Lemma run_outcome rt inp :
  outcome (run rt inp) = if clear_pressed inp then inl Rerun else inr tt.
Proof.
  destruct (clear_pressed inp) eqn:Hc.
  - now destruct (run_cleared rt inp Hc).
  - now destruct (run_continues rt inp Hc) as [s [s' [Ho _]]].
Qed.

(** C8. No run of the script ends on an uncaught exception: it returns,
    or stops for the rerun the Clear button asks for.  On each of the
    three calls (GET /health, and POST /predict and POST /explain when the
    action is taken) a transport exception and a response whose status is
    not 200 each draw an error box. *)
Theorem network_failures_are_shown_and_never_fatal rt inp :
  let evs := events (run rt inp) in
  outcome (run rt inp) = (if clear_pressed inp then inl Rerun else inr tt)
  /\ (forall e, outcome (run rt inp) <> inl (Uncaught e))
  /\ (forall e, network inp (health_request inp) = inl e ->
        In connection_error_badge evs)
  /\ (forall r, network inp (health_request inp) = inr r -> status_code r <> 200%Z ->
        In unreachable_badge evs)
  /\ (clear_pressed inp = false -> predict_pressed inp = true -> valid inp = true ->
        In (Send (predict_request inp)) evs
        /\ (forall e, network inp (predict_request inp) = inl e ->
              In (Render Main (Error (lit "Erreur : " ++ exn_str rt e))) evs)
        /\ (forall r, network inp (predict_request inp) = inr r -> status_code r <> 200%Z ->
              In (Render Main (Error (lit "Erreur lors de la requête à l’API."))) evs))
  /\ (clear_pressed inp = false -> explain_pressed inp = true -> valid inp = true ->
        In (Send (explain_request inp)) evs
        /\ (forall e, network inp (explain_request inp) = inl e ->
              In (Render Main (Error (lit "Erreur : " ++ exn_str rt e))) evs)
        /\ (forall r, network inp (explain_request inp) = inr r -> status_code r <> 200%Z ->
              In (Render Main (Error (lit "⚠️ Erreur lors de la génération de l’explication LIME."))) evs)).
Proof.
  intros evs. unfold evs.
  split; [apply run_outcome |].
  split; [intros e; rewrite run_outcome; destruct (clear_pressed inp); discriminate |].
  split.
  { intros e H. apply health_in_run.
    rewrite (health_probe_connection_error inp None e H). right. left. reflexivity. }
  split.
  { intros r H Hs. apply health_in_run.
    rewrite (health_probe_unreachable inp None r H Hs). right. left. reflexivity. }
  split.
  - intros Hc Hp Hv.
    destruct (predict_in_run rt inp Hc Hp Hv) as [s [before [after ->]]].
    rewrite predict_section_taken. split; [| split].
    + apply in_middle. right. left. reflexivity.
    + intros e He. apply in_middle. rewrite He. right. right. left. reflexivity.
    + intros r Hr Hs. apply in_middle. rewrite Hr.
      apply Z.eqb_neq in Hs. rewrite Hs. right. right. left. reflexivity.
  - intros Hc Hp Hv.
    destruct (explain_in_run rt inp Hc Hp Hv) as [s [before [after ->]]].
    rewrite explain_section_taken. split; [| split].
    + apply in_middle. right. left. reflexivity.
    + intros e He. apply in_middle. rewrite He. right. right. left. reflexivity.
    + intros r Hr Hs. apply in_middle. rewrite Hr.
      apply Z.eqb_neq in Hs. rewrite Hs. right. right. left. reflexivity.
Qed.

(** What the renderer draws for a body with the shape of a
    PredictionResult: one of the two badges, then the chart. *)
Lemma render_prediction_run rt data sentiment confidence prob_pos prob_neg s :
  is_prediction data sentiment confidence prob_pos prob_neg ->
  render_prediction rt data s =
  (inr tt, s,
   [if startswith (lower rt sentiment) (lit "pos")
    then positive_badge confidence else negative_badge confidence;
    chart prob_neg prob_pos]).
Proof.
  intros [H1 [H2 [H3 H4]]]. unfold render_prediction, bind.
  rewrite H1, H2, H3, H4. cbn [lift ret call_lower].
  destruct (startswith (lower rt sentiment) (lit "pos")); reflexivity.
Qed.

Lemma predict_section_ok rt inp data sentiment confidence prob_pos prob_neg s :
  network inp (predict_request inp) = ok data ->
  is_prediction data sentiment confidence prob_pos prob_neg ->
  events (predict_section rt inp true true (text_area_value inp) s) =
  [Render Main (Spinner (lit "Analyse du tweet en cours..."));
   Send (predict_request inp);
   if startswith (lower rt sentiment) (lit "pos")
   then positive_badge confidence else negative_badge confidence;
   chart prob_neg prob_pos;
   SpinnerCleared].
Proof.
  intros Hnet Hdata. rewrite predict_section_taken, Hnet.
  unfold ok. cbn [status_code json Z.eqb Pos.eqb].
  unfold try_except, bind at 1, lift at 1, ret at 1.
  rewrite (render_prediction_run rt data _ _ _ _ s Hdata). reflexivity.
Qed.

(** A string that starts with a variant of "neg" does not lowercase to one
    that starts with "pos". *)
Lemma neg_variant_not_pos rt sentiment :
  startswith_nocase sentiment (lit "neg") = true ->
  startswith (lower rt sentiment) (lit "pos") = false.
Proof.
  destruct sentiment as [| c rest]; [discriminate |].
  cbn [startswith_nocase lit decode]. intros H.
  apply andb_true_iff in H. destruct H as [H _].
  apply andb_true_iff in H. destruct H as [Hascii Hc].
  unfold lower. cbn [lower_from]. rewrite Hascii. cbn [app].
  apply N.eqb_eq in Hc. rewrite Hc. reflexivity.
Qed.

(** C5. When /predict answers 200 with the body [mock_predict_body]
    (sentiment "positive", confidence 0.87, probabilities 0.87 and 0.13),
    the predict action draws the success badge with the text 87.0% and
    then the bar chart whose bars are 0.13 for the negative class and 0.87
    for the positive class, mapped to red and green. *)
Theorem mock_positive_prediction_is_rendered rt inp :
  clear_pressed inp = false -> predict_pressed inp = true ->
  0 < len (text_area_value inp) <= 280 ->
  network inp (predict_request inp) = ok mock_predict_body ->
  draws (events (run rt inp))
    [Render Main (Spinner (lit "Analyse du tweet en cours..."));
     Send (predict_request inp);
     Render Main (Success (lit "😊 **POSiTIF** (87.0%)"));
     Render Main (PlotlyChart {|
       bar_x := [lit "Négatif"; lit "Positif"];
       bar_y := [PyFloat 0.13; PyFloat 0.87];
       bar_color := [lit "Négatif"; lit "Positif"];
       color_discrete_map := [(lit "Négatif", lit "red"); (lit "Positif", lit "green")];
       bar_labels := [(lit "x", lit "Classe"); (lit "y", lit "Probabilité")] |});
     SpinnerCleared].
Proof.
  intros Hc Hp Hlen Hnet. apply text_valid_iff in Hlen.
  destruct (predict_in_run rt inp Hc Hp Hlen) as [s [before [after ->]]].
  exists before, after. f_equal. f_equal.
  rewrite (predict_section_ok rt inp mock_predict_body (lit "positive") 0.87 0.87 0.13 s Hnet)
    by (repeat split; reflexivity).
  reflexivity.
Qed.

Lemma mock_positive_prediction_is_rendered_witness :
  let inp := sample_inputs (lit "J'adore ce produit, il est incroyable !") true false
               (mock_network mock_predict_body mock_explain_body) in
  0 < len (text_area_value inp) <= 280
  /\ draws (events (run sample_runtime inp))
       [Render Main (Spinner (lit "Analyse du tweet en cours..."));
        Send (predict_request inp);
        Render Main (Success (lit "😊 **POSiTIF** (87.0%)"));
        Render Main (PlotlyChart {|
          bar_x := [lit "Négatif"; lit "Positif"];
          bar_y := [PyFloat 0.13; PyFloat 0.87];
          bar_color := [lit "Négatif"; lit "Positif"];
          color_discrete_map := [(lit "Négatif", lit "red"); (lit "Positif", lit "green")];
          bar_labels := [(lit "x", lit "Classe"); (lit "y", lit "Probabilité")] |});
        SpinnerCleared].
Proof.
  intros inp.
  assert (Hlen : 0 < len (text_area_value inp) <= 280) by (cbn; lia).
  split; [exact Hlen |].
  exact (mock_positive_prediction_is_rendered sample_runtime inp eq_refl eq_refl Hlen eq_refl).
Defined.

Lemma prediction_in_run rt inp data sentiment confidence prob_pos prob_neg :
  clear_pressed inp = false -> predict_pressed inp = true ->
  0 < len (text_area_value inp) <= 280 ->
  network inp (predict_request inp) = ok data ->
  is_prediction data sentiment confidence prob_pos prob_neg ->
  draws (events (run rt inp))
    (prediction_drawn inp
       (if startswith (lower rt sentiment) (lit "pos")
        then positive_badge confidence else negative_badge confidence)
       prob_neg prob_pos).
Proof.
  intros Hc Hp Hlen Hnet Hdata. apply text_valid_iff in Hlen.
  destruct (predict_in_run rt inp Hc Hp Hlen) as [s [before [after ->]]].
  exists before, after. f_equal. f_equal.
  exact (predict_section_ok rt inp data sentiment confidence prob_pos prob_neg s Hnet Hdata).
Qed.

(** C6. When /predict answers 200 with a PredictionResult whose sentiment
    starts with "neg" in any mix of upper and lower case, the predict
    action draws the negative badge (an error box), followed by the
    chart. *)
Theorem negative_prefix_draws_negative_badge rt inp data sentiment confidence prob_pos prob_neg :
  clear_pressed inp = false -> predict_pressed inp = true ->
  0 < len (text_area_value inp) <= 280 ->
  network inp (predict_request inp) = ok data ->
  is_prediction data sentiment confidence prob_pos prob_neg ->
  startswith_nocase sentiment (lit "neg") = true ->
  draws (events (run rt inp))
    (prediction_drawn inp (negative_badge confidence) prob_neg prob_pos)
  /\ is_error_box (negative_badge confidence) = true.
Proof.
  intros Hc Hp Hlen Hnet Hdata Hneg. split; [| reflexivity].
  pose proof (prediction_in_run rt inp data sentiment confidence prob_pos prob_neg
                Hc Hp Hlen Hnet Hdata) as H.
  rewrite (neg_variant_not_pos rt sentiment Hneg) in H. exact H.
Qed.

Lemma negative_prefix_draws_negative_badge_witness :
  let inp := sample_inputs (lit "Ce film est une perte de temps totale...") true false
               (mock_network mock_negative_body mock_explain_body) in
  0 < len (text_area_value inp) <= 280
  /\ is_prediction mock_negative_body (lit "Negative") 0.91 0.09 0.91
  /\ startswith_nocase (lit "Negative") (lit "neg") = true
  /\ draws (events (run sample_runtime inp))
       (prediction_drawn inp (negative_badge 0.91) 0.91 0.09)
  /\ is_error_box (negative_badge 0.91) = true.
Proof.
  intros inp.
  assert (Hlen : 0 < len (text_area_value inp) <= 280) by (cbn; lia).
  assert (Hdata : is_prediction mock_negative_body (lit "Negative") 0.91 0.09 0.91)
    by (repeat split; reflexivity).
  split; [exact Hlen |]. split; [exact Hdata |]. split; [reflexivity |].
  exact (negative_prefix_draws_negative_badge sample_runtime inp mock_negative_body
           (lit "Negative") 0.91 0.09 0.91 eq_refl eq_refl Hlen eq_refl Hdata eq_refl).
Defined.

(** C10. When /predict answers 200 with a PredictionResult, the predict
    action draws exactly one badge and it is the positive or the negative
    one; it is the negative one whenever the lowercased sentiment does not
    start with "pos", as for "neutral" and for the empty string. *)
Theorem negative_badge_is_the_catch_all rt inp data sentiment confidence prob_pos prob_neg :
  clear_pressed inp = false -> predict_pressed inp = true ->
  0 < len (text_area_value inp) <= 280 ->
  network inp (predict_request inp) = ok data ->
  is_prediction data sentiment confidence prob_pos prob_neg ->
  (exists badge,
     draws (events (run rt inp)) (prediction_drawn inp badge prob_neg prob_pos)
     /\ (badge = positive_badge confidence \/ badge = negative_badge confidence)
     /\ (startswith (lower rt sentiment) (lit "pos") = false ->
         badge = negative_badge confidence))
  /\ startswith (lower rt (lit "neutral")) (lit "pos") = false
  /\ startswith (lower rt (lit "")) (lit "pos") = false.
Proof.
  intros Hc Hp Hlen Hnet Hdata. split; [| split; reflexivity].
  pose proof (prediction_in_run rt inp data sentiment confidence prob_pos prob_neg
                Hc Hp Hlen Hnet Hdata) as H.
  destruct (startswith (lower rt sentiment) (lit "pos")) eqn:Hpos.
  - exists (positive_badge confidence). split; [exact H |]. split; [now left | discriminate].
  - exists (negative_badge confidence). split; [exact H |]. split; [now right | reflexivity].
Qed.

Lemma negative_badge_is_the_catch_all_witness :
  let inp := sample_inputs (lit "Service client") true false
               (mock_network mock_neutral_body mock_explain_body) in
  0 < len (text_area_value inp) <= 280
  /\ is_prediction mock_neutral_body (lit "neutral") 0.5 0.5 0.5
  /\ (exists badge,
        draws (events (run sample_runtime inp)) (prediction_drawn inp badge 0.5 0.5)
        /\ (badge = positive_badge 0.5 \/ badge = negative_badge 0.5)
        /\ (startswith (lower sample_runtime (lit "neutral")) (lit "pos") = false ->
            badge = negative_badge 0.5)).
Proof.
  intros inp.
  assert (Hlen : 0 < len (text_area_value inp) <= 280) by (cbn; lia).
  assert (Hdata : is_prediction mock_neutral_body (lit "neutral") 0.5 0.5 0.5)
    by (repeat split; reflexivity).
  split; [exact Hlen |]. split; [exact Hdata |].
  exact (proj1 (negative_badge_is_the_catch_all sample_runtime inp mock_neutral_body
                  (lit "neutral") 0.5 0.5 0.5 eq_refl eq_refl Hlen eq_refl Hdata)).
Defined.

(** *** The explanation *)

Lemma render_weight_run rt word weight s :
  render_weight rt (weighted_word word weight) s =
  (inr tt, s,
   [Render InExpander
      (Markdown (lit "- <span style='color:"
                 ++ (if (0 <? weight)%float then lit "green" else lit "red")
                 ++ lit "'>" ++ word ++ lit "</span> → " ++ format_f 3 weight) true)]).
Proof. reflexivity. Qed.

Lemma explain_section_mock rt inp data html s :
  network inp (explain_request inp) = ok data ->
  subscript data (lit "html_explanation") = inr (PyStr html) ->
  subscript data (lit "explanation") = inr mock_explanation ->
  events (explain_section rt inp true true (text_area_value inp) s) =
  [Render Main (Spinner (lit "Génération de l’explication LIME... (30–60s)"));
   Send (explain_request inp);
   Render Main (Subheader (lit "📘 Explication LIME"));
   Render Main (HtmlComponent (PyStr html) 400 true);
   Render Main (Expander (lit "📊 Détails des poids des mots"));
   Render InExpander (Markdown (lit "- <span style='color:green'>love</span> → 0.420") true);
   Render InExpander (Markdown (lit "- <span style='color:red'>bad</span> → -0.310") true);
   SpinnerCleared].
Proof.
  intros Hnet Hhtml Hexp. rewrite explain_section_taken, Hnet.
  unfold ok. cbn [status_code json Z.eqb Pos.eqb].
  unfold try_except, bind at 1, lift at 1, ret at 1.
  unfold render_explanation, bind. rewrite Hhtml, Hexp. reflexivity.
Qed.

(** C9. When /explain answers 200 with a body whose HTML fragment is a
    string and whose explanation is
    [{"word":"love","weight":0.42},{"word":"bad","weight":-0.31}], the list
    of weights shows "love" in a green span and "bad" in a red span; in
    general a word is green when its weight is above zero and red
    otherwise. *)
Theorem mock_explanation_is_color_coded rt inp data html :
  clear_pressed inp = false -> explain_pressed inp = true ->
  0 < len (text_area_value inp) <= 280 ->
  network inp (explain_request inp) = ok data ->
  subscript data (lit "html_explanation") = inr (PyStr html) ->
  subscript data (lit "explanation") = inr mock_explanation ->
  draws (events (run rt inp))
    [Render Main (Spinner (lit "Génération de l’explication LIME... (30–60s)"));
     Send (explain_request inp);
     Render Main (Subheader (lit "📘 Explication LIME"));
     Render Main (HtmlComponent (PyStr html) 400 true);
     Render Main (Expander (lit "📊 Détails des poids des mots"));
     Render InExpander (Markdown (lit "- <span style='color:green'>love</span> → 0.420") true);
     Render InExpander (Markdown (lit "- <span style='color:red'>bad</span> → -0.310") true);
     SpinnerCleared]
  /\ forall word weight s,
       events (render_weight rt (weighted_word word weight) s) =
       [Render InExpander
          (Markdown (lit "- <span style='color:"
                     ++ (if (0 <? weight)%float then lit "green" else lit "red")
                     ++ lit "'>" ++ word ++ lit "</span> → " ++ format_f 3 weight) true)].
Proof.
  intros Hc Hp Hlen Hnet Hhtml Hexp. split.
  - apply text_valid_iff in Hlen.
    destruct (explain_in_run rt inp Hc Hp Hlen) as [s [before [after ->]]].
    exists before, after. f_equal. f_equal.
    exact (explain_section_mock rt inp data html s Hnet Hhtml Hexp).
  - intros word weight s. rewrite render_weight_run. reflexivity.
Qed.

Lemma mock_explanation_is_color_coded_witness :
  let inp := sample_inputs (lit "I love it, not bad") false true
               (mock_network mock_predict_body mock_explain_body) in
  0 < len (text_area_value inp) <= 280
  /\ draws (events (run sample_runtime inp))
       [Render Main (Spinner (lit "Génération de l’explication LIME... (30–60s)"));
        Send (explain_request inp);
        Render Main (Subheader (lit "📘 Explication LIME"));
        Render Main (HtmlComponent (PyStr (lit "<div>lime</div>")) 400 true);
        Render Main (Expander (lit "📊 Détails des poids des mots"));
        Render InExpander (Markdown (lit "- <span style='color:green'>love</span> → 0.420") true);
        Render InExpander (Markdown (lit "- <span style='color:red'>bad</span> → -0.310") true);
        SpinnerCleared].
Proof.
  intros inp.
  assert (Hlen : 0 < len (text_area_value inp) <= 280) by (cbn; lia).
  split; [exact Hlen |].
  exact (proj1 (mock_explanation_is_color_coded sample_runtime inp mock_explain_body
                  (lit "<div>lime</div>") eq_refl eq_refl Hlen eq_refl eq_refl eq_refl)).
Defined.

(** *** The local-mode warning *)

Lemma default_url_has_no_localhost :
  contains (lit "http://127.0.0.1:8000") (lit "localhost") = false.
Proof. vm_compute. reflexivity. Qed.

Lemma front_matter_no_warning_by_default inp :
  getenv_API_URL inp = None ->
  only (fun e => negb (is_warning e)) (front_matter inp).
Proof.
  intros Henv. unfold front_matter, api_banner, API_URL. rewrite Henv.
  rewrite default_url_has_no_localhost. only_auto.
Qed.

(** The alert is drawn when the text of the URL contains "localhost". *)
Lemma localhost_url_draws_warning rt inp :
  getenv_API_URL inp = Some (lit "http://localhost:8000") ->
  In (Render Main (Warning (lit "⚠️ L'application est configurée pour le mode local.")))
     (events (run rt inp)).
Proof.
  intros Henv.
  assert (Hf : In (Render Main (Warning (lit "⚠️ L'application est configurée pour le mode local.")))
                  (events (front_matter inp (session0 inp)))).
  { unfold front_matter.
    eapply events_bind_right; [reflexivity |].
    apply events_bind_left.
    unfold api_banner, API_URL. rewrite Henv.
    right. left. reflexivity. }
  destruct (clear_pressed inp) eqn:Hc.
  - destruct (run_cleared rt inp Hc) as [_ ->]. apply in_or_app. now left.
  - destruct (run_continues rt inp Hc) as [s [s' [_ ->]]]. apply in_or_app. now left.
Qed.

(** C1 (what the code does). With API_URL unset the script uses
    http://127.0.0.1:8000, and then no run draws a warning: the test looks
    for the text "localhost", which this loopback address does not
    contain. *)
Theorem default_api_url_draws_no_warning rt s0 choice text predict explain clear net :
  let inp := {| getenv_API_URL := None; session0 := s0; selectbox_value := choice;
                text_area_value := text; predict_pressed := predict;
                explain_pressed := explain; clear_pressed := clear; network := net |} in
  API_URL inp = lit "http://127.0.0.1:8000"
  /\ forall e, In e (events (run rt inp)) -> is_warning e = false.
Proof.
  intros inp. split; [reflexivity |]. intros e Hin.
  assert (Hall : forallb (fun e => negb (is_warning e)) (events (run rt inp)) = true).
  { destruct (clear_pressed inp) eqn:Hc.
    - destruct (run_cleared rt inp Hc) as [_ ->].
      rewrite forallb_app, (front_matter_no_warning_by_default inp eq_refl _). reflexivity.
    - destruct (run_continues rt inp Hc) as [s [s' [_ ->]]].
      rewrite !forallb_app, (front_matter_no_warning_by_default inp eq_refl _).
      rewrite (predict_section_no_warning rt inp _ _ _ _).
      rewrite (explain_section_no_warning rt inp _ _ _ _).
      reflexivity. }
  rewrite forallb_forall in Hall. specialize (Hall e Hin).
  now apply negb_true_iff in Hall.
Qed.

(* ===================================================================== *)
(** ** Further properties of the script *)
(* ===================================================================== *)

(** *** Collecting from events *)

Lemma collect_app {A} (f : event -> option A) l1 l2 :
  collect f (l1 ++ l2) = collect f l1 ++ collect f l2.
Proof.
  induction l1 as [| e l1 IH]; [reflexivity |].
  cbn. destruct (f e); cbn; rewrite IH; reflexivity.
Qed.

Lemma collect_none {A} (f : event -> option A) l :
  forallb (fun e => is_none (f e)) l = true -> collect f l = [].
Proof.
  induction l as [| e l IH]; [reflexivity |]. cbn.
  destruct (f e); cbn; [discriminate | exact IH].
Qed.

Lemma none_of {A} (f : event -> option A) {B} (m : M B) s :
  only (fun e => is_none (f e)) m -> collect f (events (m s)) = [].
Proof. intros H. apply collect_none, H. Qed.

Lemma not_in_when_never (p : event -> bool) l x :
  forallb (fun e => negb (p e)) l = true -> p x = true -> ~ In x l.
Proof.
  intros Hall Hx Hin. rewrite forallb_forall in Hall.
  specialize (Hall x Hin). rewrite Hx in Hall. discriminate.
Qed.

(** *** The front matter, piece by piece *)

Lemma sidebar_run inp s :
  exists ev, sidebar inp s = (inr tt, session_after_sidebar inp s, ev).
Proof.
  unfold sidebar, session_after_sidebar, bind, emit, ret, session_set.
  destruct (truthy (selectbox_value inp)); eexists; reflexivity.
Qed.

Lemma front_matter_run inp s :
  front_matter inp s =
  (inr (text_area_value inp), session_after_sidebar inp s,
   events (page_config s) ++ events (api_banner inp s) ++ events (sidebar inp s)
   ++ events (heading s) ++ events (health_probe inp s)
   ++ events (input_zone inp (session_after_sidebar inp s))).
Proof.
  unfold front_matter.
  destruct (api_banner_returns inp s) as [ev1 H1].
  destruct (sidebar_run inp s) as [ev2 H2].
  set (s2 := session_after_sidebar inp s) in *.
  rewrite (bind_returns page_config _ s tt s _ eq_refl).
  rewrite (bind_returns (api_banner inp) _ s tt s ev1 H1).
  rewrite (bind_returns (sidebar inp) _ s tt s2 ev2 H2).
  rewrite (bind_returns heading _ s2 tt s2 _ eq_refl).
  rewrite (bind_returns (health_probe inp) _ s2 tt s2 _ (health_probe_run inp s2)).
  rewrite H1, H2, !health_probe_run. reflexivity.
Qed.

Lemma api_banner_only p inp :
  p (Render Sidebar (Markdown (lit "🔗 **API utilisée :** `" ++ API_URL inp ++ lit "`") false)) = true ->
  p (Render Main (Warning (lit "⚠️ L'application est configurée pour le mode local."))) = true ->
  only p (api_banner inp).
Proof.
  intros H1 H2. unfold api_banner.
  apply only_bind; [apply only_emit, H1 | intros _].
  destruct (contains _ _); [apply only_emit, H2 | apply only_ret].
Qed.

Lemma sidebar_sends_nothing inp : only (fun e => is_none (sent e)) (sidebar inp).
Proof. only_auto. Qed.

Lemma sidebar_no_input_box inp : only (fun e => is_none (input_default e)) (sidebar inp).
Proof. only_auto. Qed.

Lemma sidebar_no_warning inp : only (fun e => negb (is_warning e)) (sidebar inp).
Proof. only_auto. Qed.

Lemma sidebar_no_connected_badge inp : only (fun e => negb (is_connected_badge e)) (sidebar inp).
Proof. only_auto. Qed.

(** *** Computations that hand the session state on *)

Lemma keeps_ret {A} (a : A) : keeps_session (ret a).
Proof. intros s. reflexivity. Qed.

Lemma keeps_lift {A} (x : exn + A) : keeps_session (lift x).
Proof. destruct x; intros s; reflexivity. Qed.

Lemma keeps_emit e : keeps_session (emit e).
Proof. intros s. reflexivity. Qed.

Lemma keeps_bind {A B} (m : M A) (f : A -> M B) :
  keeps_session m -> (forall a, keeps_session (f a)) -> keeps_session (bind m f).
Proof.
  intros Hm Hf s. unfold bind. specialize (Hm s).
  destruct (m s) as [[[st | a] s'] ev]; cbn in *; [exact Hm |].
  specialize (Hf a s'). destruct (f a s') as [[r s''] ev']. cbn in *. congruence.
Qed.

Lemma keeps_try body handler :
  keeps_session body -> (forall e, keeps_session (handler e)) ->
  keeps_session (try_except body handler).
Proof.
  intros Hb Hh s. unfold try_except. specialize (Hb s).
  destruct (body s) as [[[[e |] | a] s'] ev]; cbn in *; try exact Hb.
  specialize (Hh e s'). destruct (handler e s') as [[r s''] ev']. cbn in *. congruence.
Qed.

Lemma keeps_spinner text body :
  keeps_session body -> keeps_session (with_spinner text body).
Proof.
  intros Hb s. unfold with_spinner. specialize (Hb s).
  destruct (body s) as [[r s'] ev]. exact Hb.
Qed.

Lemma keeps_for_each {A} (items : list A) (f : A -> M unit) :
  (forall a, keeps_session (f a)) -> keeps_session (for_each items f).
Proof.
  intros Hf. induction items as [| a items IH]; cbn.
  - apply keeps_ret.
  - apply keeps_bind; [apply Hf | intros _; exact IH].
Qed.

Ltac keeps_step :=
  match goal with
  | |- keeps_session (bind _ _) => apply keeps_bind; [| intros ?]
  | |- keeps_session (emit _) => apply keeps_emit
  | |- keeps_session (ret _) => apply keeps_ret
  | |- keeps_session (lift _) => apply keeps_lift
  | |- keeps_session (try_except _ _) => apply keeps_try; [| intros ?]
  | |- keeps_session (with_spinner _ _) => apply keeps_spinner
  | |- keeps_session (for_each _ _) => apply keeps_for_each; intros ?
  | |- keeps_session (if ?b then _ else _) => destruct b
  end.

Ltac keeps_auto := unfold_sections; repeat (cbv beta; keeps_step).

Lemma predict_section_keeps rt inp btn ok txt :
  keeps_session (predict_section rt inp btn ok txt).
Proof. keeps_auto. Qed.

Lemma explain_section_keeps rt inp btn ok txt :
  keeps_session (explain_section rt inp btn ok txt).
Proof. keeps_auto. Qed.

Lemma body_final_session rt inp s :
  clear_pressed inp = false ->
  final_session (body rt inp (text_area_value inp) s) = s.
Proof.
  intros Hc.
  pose proof (triple_eta (predict_section rt inp (predict_pressed inp) (valid inp) (text_area_value inp) s)) as Ep.
  rewrite predict_section_returns, predict_section_keeps in Ep.
  pose proof (triple_eta (explain_section rt inp (explain_pressed inp) (valid inp) (text_area_value inp) s)) as Ee.
  rewrite explain_section_returns, explain_section_keeps in Ee.
  unfold body.
  rewrite (bind_returns (counter _) _ s tt s _ eq_refl).
  rewrite (bind_returns (action_buttons inp _) _ s _ s _ eq_refl).
  cbv beta iota. rewrite Hc.
  rewrite (bind_returns (clear_action false) _ s tt s _ eq_refl).
  rewrite (bind_returns _ _ s tt s _ Ep).
  rewrite (bind_returns _ _ s tt s _ Ee).
  reflexivity.
Qed.

(** The events of a run, with the session state each section starts in. *)
Lemma run_events rt inp :
  let s1 := session_after_sidebar inp (session0 inp) in
  events (run rt inp) =
  events (front_matter inp (session0 inp)) ++ counter_and_buttons inp
  ++ (if clear_pressed inp then []
      else events (predict_section rt inp (predict_pressed inp) (valid inp) (text_area_value inp) s1)
           ++ events (explain_section rt inp (explain_pressed inp) (valid inp) (text_area_value inp) s1)
           ++ events (footer None)).
Proof.
  intros s1. unfold run, script.
  pose proof (front_matter_run inp (session0 inp)) as H1. fold s1 in H1.
  rewrite (bind_returns _ _ _ _ _ _ H1), H1.
  destruct (clear_pressed inp) eqn:Hc.
  - rewrite (body_cleared rt inp s1 Hc). reflexivity.
  - pose proof (triple_eta (predict_section rt inp (predict_pressed inp) (valid inp) (text_area_value inp) s1)) as Ep.
    rewrite predict_section_returns, predict_section_keeps in Ep.
    pose proof (triple_eta (explain_section rt inp (explain_pressed inp) (valid inp) (text_area_value inp) s1)) as Ee.
    rewrite explain_section_returns, explain_section_keeps in Ee.
    unfold body.
    rewrite (bind_returns (counter _) _ s1 tt s1 _ eq_refl).
    rewrite (bind_returns (action_buttons inp _) _ s1 _ s1 _ eq_refl).
    cbv beta iota. rewrite Hc.
    rewrite (bind_returns (clear_action false) _ s1 tt s1 _ eq_refl).
    rewrite (bind_returns _ _ s1 tt s1 _ Ep).
    rewrite (bind_returns _ _ s1 tt s1 _ Ee).
    reflexivity.
Qed.

Lemma final_session_of_run rt inp :
  final_session (run rt inp) =
  if clear_pressed inp then Some (lit "")
  else session_after_sidebar inp (session0 inp).
Proof.
  unfold run, script.
  rewrite (bind_returns _ _ _ _ _ _ (front_matter_run inp (session0 inp))).
  cbn [final_session fst snd].
  destruct (clear_pressed inp) eqn:Hc.
  - rewrite (body_cleared rt inp _ Hc). reflexivity.
  - rewrite (body_final_session rt inp _ Hc). reflexivity.
Qed.

(** X1. What a run leaves in the session state for the next one: the
    empty text after Clear; otherwise the example picked in this run, if
    any, and else what it found.  The two actions never change it,
    whatever the network answers. *)
Theorem run_final_session rt inp :
  final_session (run rt inp) =
  if clear_pressed inp then Some (lit "")
  else if truthy (selectbox_value inp) then Some (selectbox_value inp)
  else session0 inp.
Proof. rewrite final_session_of_run. reflexivity. Qed.

(** *** The requests of a run *)

Lemma front_matter_requests inp s :
  requests_sent (events (front_matter inp s)) = [health_request inp].
Proof.
  rewrite front_matter_run. cbn [events snd]. unfold requests_sent.
  rewrite !collect_app.
  rewrite (none_of sent (api_banner inp) s) by (apply api_banner_only; reflexivity).
  rewrite (none_of sent (sidebar inp) s) by apply sidebar_sends_nothing.
  rewrite health_probe_run. cbn [events snd collect sent page_config heading input_zone
    emit bind ret session_get fst app].
  destruct (network inp (health_request inp)) as [e | r]; [reflexivity |].
  destruct (status_code r =? 200)%Z; reflexivity.
Qed.

Lemma prediction_handler_sends_nothing rt response :
  only (fun e => is_none (sent e))
    (try_except (data <- lift (json response) ;; render_prediction rt data)
       (fun e => emit (Render Main (Error (lit "Erreur : " ++ exn_str rt e))))).
Proof. only_auto. Qed.

Lemma explanation_handler_sends_nothing rt resp :
  only (fun e => is_none (sent e))
    (try_except (data <- lift (json resp) ;; render_explanation rt data)
       (fun e => emit (Render Main (Error (lit "Erreur : " ++ exn_str rt e))))).
Proof. only_auto. Qed.

Lemma predict_section_requests rt inp btn ok s :
  requests_sent (events (predict_section rt inp btn ok (text_area_value inp) s)) =
  if btn && ok then [predict_request inp] else [].
Proof.
  destruct btn, ok; try reflexivity.
  rewrite predict_section_taken. unfold requests_sent. cbn [collect sent andb].
  rewrite collect_app. cbn [collect sent]. rewrite app_nil_r. f_equal.
  destruct (network inp (predict_request inp)) as [e | r]; [reflexivity |].
  destruct (status_code r =? 200)%Z; [| reflexivity].
  apply collect_none, prediction_handler_sends_nothing.
Qed.

Lemma explain_section_requests rt inp btn ok s :
  requests_sent (events (explain_section rt inp btn ok (text_area_value inp) s)) =
  if btn && ok then [explain_request inp] else [].
Proof.
  destruct btn, ok; try reflexivity.
  rewrite explain_section_taken. unfold requests_sent. cbn [collect sent andb].
  rewrite collect_app. cbn [collect sent]. rewrite app_nil_r. f_equal.
  destruct (network inp (explain_request inp)) as [e | r]; [reflexivity |].
  destruct (status_code r =? 200)%Z; [| reflexivity].
  apply collect_none, explanation_handler_sends_nothing.
Qed.

(** X2. The requests of a run, all of them and in order: always the GET of
    /health first; then, unless Clear was pressed, the POST of /predict
    when its button was pressed on a valid text and the POST of /explain
    likewise, each with the body {"text": tweet_text} and the base
    address API_URL.  A run sends nothing else. *)
Theorem requests_of_a_run rt inp :
  requests_sent (events (run rt inp)) =
  Get (API_URL inp ++ lit "/health")
  :: (if clear_pressed inp then []
      else (if predict_pressed inp && text_valid (len (text_area_value inp))
            then [Post (API_URL inp ++ lit "/predict")
                    (PyDict [(lit "text", PyStr (text_area_value inp))])]
            else [])
           ++ (if explain_pressed inp && text_valid (len (text_area_value inp))
               then [Post (API_URL inp ++ lit "/explain")
                       (PyDict [(lit "text", PyStr (text_area_value inp))])]
               else [])).
Proof.
  rewrite run_events. cbv zeta. unfold requests_sent at 1.
  rewrite !collect_app.
  fold (requests_sent (events (front_matter inp (session0 inp)))).
  rewrite front_matter_requests.
  destruct (clear_pressed inp).
  - reflexivity.
  - rewrite !collect_app.
    change (collect sent (events (predict_section rt inp (predict_pressed inp) (valid inp)
              (text_area_value inp) (session_after_sidebar inp (session0 inp)))))
      with (requests_sent (events (predict_section rt inp (predict_pressed inp) (valid inp)
              (text_area_value inp) (session_after_sidebar inp (session0 inp))))).
    change (collect sent (events (explain_section rt inp (explain_pressed inp) (valid inp)
              (text_area_value inp) (session_after_sidebar inp (session0 inp)))))
      with (requests_sent (events (explain_section rt inp (explain_pressed inp) (valid inp)
              (text_area_value inp) (session_after_sidebar inp (session0 inp))))).
    rewrite predict_section_requests, explain_section_requests.
    cbn [counter_and_buttons collect sent footer emit bind events snd fst app].
    rewrite app_nil_r. reflexivity.
Qed.

(** *** The input box *)

Lemma predict_section_no_input_box rt inp btn ok txt :
  only (fun e => is_none (input_default e)) (predict_section rt inp btn ok txt).
Proof. only_auto. Qed.

Lemma explain_section_no_input_box rt inp btn ok txt :
  only (fun e => is_none (input_default e)) (explain_section rt inp btn ok txt).
Proof. only_auto. Qed.

Lemma front_matter_input_default inp :
  input_defaults (events (front_matter inp (session0 inp))) = [expected_default inp].
Proof.
  rewrite front_matter_run. cbn [events snd]. unfold input_defaults.
  rewrite !collect_app.
  rewrite (none_of input_default (api_banner inp) _) by (apply api_banner_only; reflexivity).
  rewrite (none_of input_default (sidebar inp) _) by apply sidebar_no_input_box.
  rewrite health_probe_run.
  unfold expected_default, session_after_sidebar.
  destruct (truthy (selectbox_value inp)), (session0 inp);
    destruct (network inp (health_request inp)) as [e | r];
    try destruct (status_code r =? 200)%Z; reflexivity.
Qed.

Lemma input_defaults_of_run rt inp :
  input_defaults (events (run rt inp)) = [expected_default inp].
Proof.
  rewrite run_events. cbv zeta. unfold input_defaults at 1.
  rewrite collect_app.
  fold (input_defaults (events (front_matter inp (session0 inp)))).
  rewrite front_matter_input_default.
  rewrite collect_app.
  destruct (clear_pressed inp).
  - reflexivity.
  - rewrite !collect_app.
    rewrite (none_of input_default _ _ (predict_section_no_input_box rt inp _ _ _)).
    rewrite (none_of input_default _ _ (explain_section_no_input_box rt inp _ _ _)).
    reflexivity.
Qed.

(** X3. Every run draws the input box once, filled with the example picked
    in the sidebar when one is picked, and otherwise with the text the
    session state holds (nothing on a first run); an example therefore
    replaces whatever the session state held. *)
Theorem input_box_default rt inp :
  input_defaults (events (run rt inp)) =
  [if truthy (selectbox_value inp) then selectbox_value inp
   else match session0 inp with Some v => v | None => lit "" end].
Proof. exact (input_defaults_of_run rt inp). Qed.

(** X4. Clear and the next run.  A run in which Clear is pressed stops for
    a rerun; the run that follows, started in the session state it left,
    passes the empty text as the [value] argument of the input box if no
    example is selected in it, and if an example is still selected it
    passes that example again.  This fixes the argument only: the text the
    widget returns in that run is an input of the run. *)
Theorem clear_then_next_run rt inp next :
  clear_pressed inp = true ->
  session0 next = final_session (run rt inp) ->
  outcome (run rt inp) = inl Rerun
  /\ input_defaults (events (run rt next)) =
     [if truthy (selectbox_value next) then selectbox_value next else lit ""].
Proof.
  intros Hc Hnext. split.
  - rewrite run_outcome, Hc. reflexivity.
  - rewrite input_defaults_of_run. unfold expected_default.
    rewrite Hnext, final_session_of_run, Hc. reflexivity.
Qed.

Lemma clear_then_next_run_witness :
  let net := mock_network mock_predict_body mock_explain_body in
  let inp := inputs_of None (Some (lit "ancien texte")) (lit "") (lit "ancien texte")
               false false true net in
  let next := inputs_of None (Some (lit "")) (lit "") (lit "") false false false net in
  clear_pressed inp = true
  /\ session0 next = final_session (run sample_runtime inp)
  /\ outcome (run sample_runtime inp) = inl Rerun
  /\ input_defaults (events (run sample_runtime next)) = [lit ""].
Proof.
  intros net inp next.
  split; [reflexivity |]. split; [reflexivity |].
  exact (clear_then_next_run sample_runtime inp next eq_refl eq_refl).
Defined.



(** *** The local-mode warning, in general *)




(** *** The health badge, in general *)

Lemma api_banner_no_connected_badge inp :
  only (fun e => negb (is_connected_badge e)) (api_banner inp).
Proof. apply api_banner_only; reflexivity. Qed.

Lemma predict_section_no_connected_badge rt inp btn ok txt :
  only (fun e => negb (is_connected_badge e)) (predict_section rt inp btn ok txt).
Proof. only_auto. Qed.

Lemma explain_section_no_connected_badge rt inp btn ok txt :
  only (fun e => negb (is_connected_badge e)) (explain_section rt inp btn ok txt).
Proof. only_auto. Qed.

Lemma connected_badge_only_from_health rt inp :
  forallb (fun e => negb (is_connected_badge e)) (events (run rt inp)) =
  forallb (fun e => negb (is_connected_badge e)) (events (health_probe inp None)).
Proof.
  assert (Hrest : forallb (fun e => negb (is_connected_badge e))
            (counter_and_buttons inp ++
             (if clear_pressed inp then []
              else events (predict_section rt inp (predict_pressed inp) (valid inp)
                     (text_area_value inp) (session_after_sidebar inp (session0 inp)))
                   ++ events (explain_section rt inp (explain_pressed inp) (valid inp)
                        (text_area_value inp) (session_after_sidebar inp (session0 inp)))
                   ++ events (footer None))) = true).
  { rewrite forallb_app. destruct (clear_pressed inp); [reflexivity |].
    rewrite !forallb_app.
    rewrite (predict_section_no_connected_badge rt inp _ _ _ _).
    rewrite (explain_section_no_connected_badge rt inp _ _ _ _).
    reflexivity. }
  rewrite run_events. cbv zeta. rewrite forallb_app, Hrest, andb_true_r.
  rewrite front_matter_run. cbn [events snd]. rewrite !forallb_app.
  rewrite (api_banner_no_connected_badge inp _), (sidebar_no_connected_badge inp _).
  rewrite !health_probe_run. cbn [events snd].
  cbn [page_config heading input_zone emit bind ret session_get events snd fst app forallb
       is_connected_badge negb andb].
  rewrite !andb_true_r. reflexivity.
Qed.

(** X6. A run draws the connected badge exactly when the GET of /health
    came back with status 200; a response with any other status and a
    transport exception never draw it, and no other part of the page
    does. *)
Theorem connected_badge_iff_status_200 rt inp :
  In connected_badge (events (run rt inp))
  <-> exists health, network inp (health_request inp) = inr health
                     /\ status_code health = 200%Z.
Proof.
  split.
  - intros Hin.
    destruct (network inp (health_request inp)) as [e | health] eqn:Hnet.
    + exfalso. revert Hin. apply (not_in_when_never is_connected_badge); [| reflexivity].
      rewrite connected_badge_only_from_health, health_probe_run, Hnet. reflexivity.
    + destruct (status_code health =? 200)%Z eqn:Hs.
      * exists health. split; [reflexivity | now apply Z.eqb_eq].
      * exfalso. revert Hin. apply (not_in_when_never is_connected_badge); [| reflexivity].
        rewrite connected_badge_only_from_health, health_probe_run, Hnet.
        cbn [events snd]. rewrite Hs. reflexivity.
  - intros [health [Hnet Hs]]. apply health_in_run.
    rewrite health_probe_run, Hnet. apply Z.eqb_eq in Hs. rewrite Hs.
    right. left. reflexivity.
Qed.

(** X7. Unless Clear was pressed, a run ends with the divider and the
    caption of the footer and returns: no answer of the network and no
    failure of an action cuts the page short. *)
Theorem page_ends_with_footer rt inp :
  clear_pressed inp = false ->
  outcome (run rt inp) = inr tt
  /\ exists before,
       events (run rt inp) =
       before ++ [Render Main Divider;
                  Render Main (Caption (lit "🧠 Application développée dans le cadre du projet MLOps — Streamlit + FastAPI + MLflow + LIME"))].
Proof.
  intros Hc. split; [rewrite run_outcome, Hc; reflexivity |].
  rewrite run_events, Hc. cbv zeta.
  eexists. rewrite !app_assoc. reflexivity.
Qed.

Lemma page_ends_with_footer_witness :
  let inp := sample_inputs (lit "bonjour") true true
               (scripted_network (inl (RequestException (lit "timeout")))
                                 (inr {| status_code := 500; json := inl (JSONDecodeError []) |})) in
  clear_pressed inp = false
  /\ outcome (run sample_runtime inp) = inr tt
  /\ exists before,
       events (run sample_runtime inp) =
       before ++ [Render Main Divider;
                  Render Main (Caption (lit "🧠 Application développée dans le cadre du projet MLOps — Streamlit + FastAPI + MLflow + LIME"))].
Proof.
  intros inp. split; [reflexivity |].
  exact (page_ends_with_footer sample_runtime inp eq_refl).
Defined.

(** *** What the handlers of a 200 answer draw *)

Lemma bind_lift_inr {A B} (a : A) (f : A -> M B) s :
  bind (lift (inr a)) f s = f a s.
Proof. unfold bind, lift, ret. destruct (f a s) as [[r s'] ev]. reflexivity. Qed.

(** The events of [try: data = r.json(); k(data) / except: st.error]. *)
Lemma action_handler_events rt (k : pyval -> M unit) (r : exn + pyval) s :
  events (try_except (data <- lift r ;; k data)
            (fun e => emit (Render Main (Error (lit "Erreur : " ++ exn_str rt e)))) s) =
  match r with
  | inl e => [error_box rt e]
  | inr data =>
      match outcome (k data s) with
      | inl (Uncaught e) => events (k data s) ++ [error_box rt e]
      | _ => events (k data s)
      end
  end.
Proof.
  unfold try_except. destruct r as [e | data].
  - reflexivity.
  - rewrite bind_lift_inr.
    destruct (k data s) as [[[[e |] | []] s'] ev]; reflexivity.
Qed.

Lemma predict_section_200 rt inp body s :
  network inp (predict_request inp) = inr {| status_code := 200; json := body |} ->
  events (predict_section rt inp true true (text_area_value inp) s) =
  prediction_around inp
    match body with
    | inl e => [error_box rt e]
    | inr data =>
        match outcome (render_prediction rt data s) with
        | inl (Uncaught e) => events (render_prediction rt data s) ++ [error_box rt e]
        | _ => events (render_prediction rt data s)
        end
    end.
Proof.
  intros Hnet. rewrite predict_section_taken, Hnet.
  cbn [status_code json Z.eqb Pos.eqb]. rewrite action_handler_events. reflexivity.
Qed.

Lemma explain_section_200 rt inp body s :
  network inp (explain_request inp) = inr {| status_code := 200; json := body |} ->
  events (explain_section rt inp true true (text_area_value inp) s) =
  explanation_around inp
    match body with
    | inl e => [error_box rt e]
    | inr data =>
        match outcome (render_explanation rt data s) with
        | inl (Uncaught e) => events (render_explanation rt data s) ++ [error_box rt e]
        | _ => events (render_explanation rt data s)
        end
    end.
Proof.
  intros Hnet. rewrite explain_section_taken, Hnet.
  cbn [status_code json Z.eqb Pos.eqb]. rewrite action_handler_events. reflexivity.
Qed.

Lemma predict_taken_in_run rt inp :
  predict_taken inp ->
  exists s, forall mid,
    events (predict_section rt inp true true (text_area_value inp) s) = mid ->
    draws (events (run rt inp)) mid.
Proof.
  intros [Hc [Hp Hlen]]. apply text_valid_iff in Hlen.
  destruct (predict_in_run rt inp Hc Hp Hlen) as [s [before [after H]]].
  exists s. intros mid <-. exists before, after. exact H.
Qed.

Lemma explain_taken_in_run rt inp :
  explain_taken inp ->
  exists s, forall mid,
    events (explain_section rt inp true true (text_area_value inp) s) = mid ->
    draws (events (run rt inp)) mid.
Proof.
  intros [Hc [Hp Hlen]]. apply text_valid_iff in Hlen.
  destruct (explain_in_run rt inp Hc Hp Hlen) as [s [before [after H]]].
  exists s. intros mid <-. exists before, after. exact H.
Qed.

(** *** Answers of /predict that are not a PredictionResult *)

Lemma render_prediction_any rt data v_sentiment v_confidence v_pos v_neg s :
  subscript data (lit "sentiment") = inr v_sentiment ->
  subscript data (lit "confidence") = inr v_confidence ->
  subscript data (lit "probability_positive") = inr v_pos ->
  subscript data (lit "probability_negative") = inr v_neg ->
  render_prediction rt data s =
  match call_lower rt v_sentiment with
  | inl e => (inl (Uncaught e), s, [])
  | inr lowered =>
      match float_for_format v_confidence with
      | inl e => (inl (Uncaught e), s, [])
      | inr x =>
          let badge :=
            if startswith lowered (lit "pos") then positive_badge x else negative_badge x in
          match px_bar rt v_neg v_pos with
          | inl e => (inl (Uncaught e), s, [badge])
          | inr fig => (inr tt, s, [badge; Render Main (PlotlyChart fig)])
          end
      end
  end.
Proof.
  intros H1 H2 H3 H4. unfold render_prediction, bind.
  rewrite H1, H2, H3, H4. cbn [lift ret].
  destruct (call_lower rt v_sentiment) as [e | lowered]; [reflexivity |].
  cbn [lift ret]. unfold fmt_pct1, bind.
  destruct (startswith lowered (lit "pos"));
    destruct (float_for_format v_confidence) as [e | x]; try reflexivity;
    cbn [lift ret raise emit]; destruct (px_bar rt v_neg v_pos) as [e | fig]; reflexivity.
Qed.

(** X8. When /predict answers 200 with a dict that has the four keys,
    whatever their values: if the sentiment is not a string, or the
    confidence is not a number a float format accepts, the run draws the
    error box of that exception and neither a badge nor the chart;
    otherwise it draws the badge with the confidence converted to a float
    (an int or a bool is accepted), and then the chart of the two
    probability values if [px.bar] takes them, or else, the badge staying
    drawn, the error box of the exception [px.bar] raised and no chart. *)
Theorem prediction_with_any_values rt inp data v_sentiment v_confidence v_pos v_neg :
  predict_taken inp ->
  network inp (predict_request inp) = ok data ->
  subscript data (lit "sentiment") = inr v_sentiment ->
  subscript data (lit "confidence") = inr v_confidence ->
  subscript data (lit "probability_positive") = inr v_pos ->
  subscript data (lit "probability_negative") = inr v_neg ->
  draws (events (run rt inp))
    (prediction_around inp
       match call_lower rt v_sentiment with
       | inl e => [error_box rt e]
       | inr lowered =>
           match float_for_format v_confidence with
           | inl e => [error_box rt e]
           | inr x =>
               (if startswith lowered (lit "pos") then positive_badge x else negative_badge x)
               :: match px_bar rt v_neg v_pos with
                  | inl e => [error_box rt e]
                  | inr fig => [Render Main (PlotlyChart fig)]
                  end
           end
       end).
Proof.
  intros Htaken Hnet H1 H2 H3 H4.
  destruct (predict_taken_in_run rt inp Htaken) as [s Hdraw]. apply Hdraw.
  rewrite (predict_section_200 rt inp (inr data) s Hnet).
  rewrite (render_prediction_any rt data _ _ _ _ s H1 H2 H3 H4).
  destruct (call_lower rt v_sentiment) as [e | lowered]; [reflexivity |].
  destruct (float_for_format v_confidence) as [e | x]; [reflexivity |].
  cbv zeta. destruct (px_bar rt v_neg v_pos) as [e | fig]; reflexivity.
Qed.

Lemma prediction_with_any_values_witness :
  let inp := sample_inputs (lit "J'adore") true false
               (mock_network mock_nested_body mock_explain_body) in
  predict_taken inp
  /\ draws (events (run sample_runtime inp))
       (prediction_around inp
          [Render Main (Success (lit "😊 **POSiTIF** (100.0%)"));
           error_box sample_runtime ValueError]).
Proof.
  intros inp.
  assert (Htaken : predict_taken inp)
    by (split; [reflexivity | split; [reflexivity | cbn; lia]]).
  split; [exact Htaken |].
  exact (prediction_with_any_values sample_runtime inp mock_nested_body
           (PyStr (lit "positive")) (PyInt 1) (PyList [PyFloat 0.9]) (PyList [PyFloat 0.1])
           Htaken eq_refl eq_refl eq_refl eq_refl eq_refl).
Defined.

Lemma render_prediction_missing_key rt items k s :
  first_missing prediction_keys items = Some k ->
  render_prediction rt (PyDict items) s = (inl (Uncaught (KeyError k)), s, []).
Proof.
  unfold prediction_keys. cbn [first_missing]. intros H.
  unfold render_prediction, bind. cbn [subscript].
  destruct (lookup (lit "sentiment") items); [| injection H as <-; reflexivity].
  cbn [lift ret].
  destruct (lookup (lit "confidence") items); [| injection H as <-; reflexivity].
  cbn [lift ret].
  destruct (lookup (lit "probability_positive") items); [| injection H as <-; reflexivity].
  cbn [lift ret].
  destruct (lookup (lit "probability_negative") items); [| injection H as <-; reflexivity].
  discriminate.
Qed.

(** X9. When /predict answers 200 with a dict that lacks one of the four
    keys, the run draws the error box of the KeyError for the first
    missing key, in the order sentiment, confidence, probability_positive,
    probability_negative, and draws neither a badge nor the chart, even
    if the sentiment and the confidence are there. *)
Theorem prediction_with_missing_key rt inp items k :
  predict_taken inp ->
  network inp (predict_request inp) = ok (PyDict items) ->
  first_missing prediction_keys items = Some k ->
  draws (events (run rt inp)) (prediction_around inp [error_box rt (KeyError k)]).
Proof.
  intros Htaken Hnet Hk.
  destruct (predict_taken_in_run rt inp Htaken) as [s Hdraw]. apply Hdraw.
  rewrite (predict_section_200 rt inp (inr (PyDict items)) s Hnet).
  rewrite (render_prediction_missing_key rt items k s Hk). reflexivity.
Qed.

Lemma prediction_with_missing_key_witness :
  let inp := sample_inputs (lit "J'adore") true false
               (mock_network mock_partial_body mock_explain_body) in
  predict_taken inp
  /\ first_missing prediction_keys
       [(lit "sentiment", PyStr (lit "positive")); (lit "probability_positive", PyFloat 0.9)]
     = Some (lit "confidence")
  /\ draws (events (run sample_runtime inp))
       (prediction_around inp [error_box sample_runtime (KeyError (lit "confidence"))]).
Proof.
  intros inp.
  assert (Htaken : predict_taken inp)
    by (split; [reflexivity | split; [reflexivity | cbn; lia]]).
  split; [exact Htaken |]. split; [reflexivity |].
  exact (prediction_with_missing_key sample_runtime inp _ (lit "confidence")
           Htaken eq_refl eq_refl).
Defined.

(** X10. When /predict answers 200 with a body that [.json()] cannot
    decode, the run draws the error box of the decoding exception and
    nothing else for the action. *)
Theorem prediction_with_undecodable_body rt inp e :
  predict_taken inp ->
  network inp (predict_request inp) = inr {| status_code := 200; json := inl e |} ->
  draws (events (run rt inp)) (prediction_around inp [error_box rt e]).
Proof.
  intros Htaken Hnet.
  destruct (predict_taken_in_run rt inp Htaken) as [s Hdraw]. apply Hdraw.
  exact (predict_section_200 rt inp (inl e) s Hnet).
Qed.

Lemma prediction_with_undecodable_body_witness :
  let e := JSONDecodeError (lit "Expecting value: line 1 column 1 (char 0)") in
  let inp := sample_inputs (lit "J'adore") true false
               (scripted_network (inr {| status_code := 200; json := inl e |})
                                 (ok mock_explain_body)) in
  predict_taken inp
  /\ draws (events (run sample_runtime inp)) (prediction_around inp [error_box sample_runtime e]).
Proof.
  intros e inp.
  assert (Htaken : predict_taken inp)
    by (split; [reflexivity | split; [reflexivity | cbn; lia]]).
  split; [exact Htaken |].
  exact (prediction_with_undecodable_body sample_runtime inp e Htaken eq_refl).
Defined.

(** *** The list of weights, in general *)

Lemma render_weight_item rt item word weight s :
  is_weighted_word item word weight ->
  render_weight rt item s = (inr tt, s, [word_line word weight]).
Proof.
  intros [Hword Hweight]. unfold render_weight, bind.
  rewrite Hweight. cbn [lift ret gt_zero]. rewrite Hword. reflexivity.
Qed.

Lemma render_weight_fails rt item e s :
  subscript item (lit "weight") = inl e ->
  render_weight rt item s = (inl (Uncaught e), s, []).
Proof. intros H. unfold render_weight, bind. rewrite H. reflexivity. Qed.

Lemma for_each_lines rt items pairs s :
  weighted_items items pairs ->
  for_each items (render_weight rt) s = (inr tt, s, word_lines pairs).
Proof.
  intros H. induction H as [| item [word weight] items pairs Hitem _ IH]; [reflexivity |].
  cbn [word_lines map for_each fst snd].
  rewrite (bind_returns _ _ s tt s _ (render_weight_item rt item word weight s Hitem)).
  fold (word_lines pairs). rewrite IH. reflexivity.
Qed.

Lemma for_each_stops rt good pairs bad rest e s :
  weighted_items good pairs ->
  subscript bad (lit "weight") = inl e ->
  for_each (good ++ bad :: rest) (render_weight rt) s =
  (inl (Uncaught e), s, word_lines pairs).
Proof.
  intros H Hbad. induction H as [| item [word weight] good pairs Hitem _ IH].
  - cbn [app for_each]. unfold bind.
    rewrite (render_weight_fails rt bad e s Hbad). reflexivity.
  - cbn [word_lines map app for_each fst snd].
    rewrite (bind_returns _ _ s tt s _ (render_weight_item rt item word weight s Hitem)).
    fold (word_lines pairs). rewrite IH. reflexivity.
Qed.

Lemma weighted_items_length items pairs :
  weighted_items items pairs -> length (word_lines pairs) = length items.
Proof.
  intros H. unfold word_lines. rewrite length_map.
  induction H; cbn; congruence.
Qed.

Lemma components_html_string rt html s :
  components_html rt (PyStr html) s =
  (inr tt, s, [Render Main (HtmlComponent (PyStr html) 400 true)]).
Proof. reflexivity. Qed.

Lemma components_html_rejected rt html e s :
  html_check rt html = inl e ->
  components_html rt html s = (inl (Uncaught e), s, []).
Proof. intros H. unfold components_html, bind. rewrite H. reflexivity. Qed.

Lemma render_explanation_items rt data html v items s :
  subscript data (lit "html_explanation") = inr (PyStr html) ->
  subscript data (lit "explanation") = inr v ->
  iterate v = inr items ->
  render_explanation rt data s =
  (outcome (for_each items (render_weight rt) s),
   final_session (for_each items (render_weight rt) s),
   explanation_heading :: explanation_frame (PyStr html)
   ++ events (for_each items (render_weight rt) s)).
Proof.
  intros H1 H2 H3. unfold render_explanation, bind. rewrite H1.
  cbn [emit lift ret]. rewrite components_html_string, H2.
  cbn [emit lift ret]. rewrite H3. cbn [lift ret].
  destruct (for_each items (render_weight rt) s) as [[r s'] ev]. reflexivity.
Qed.

(** X11. When /explain answers 200 with an HTML fragment that is a string
    and an explanation that iterates over items each giving a word and a
    float weight (whatever else an item holds), of any length, the run
    draws the heading, the HTML frame (height 400, scrolling) and the
    expander, then one line per item in the order of the explanation,
    green when the weight is above zero and red otherwise, with the weight
    printed to three decimals; with no item it draws no line and no
    error. *)
Theorem explanation_lines_follow_the_list rt inp data html v items pairs :
  explain_taken inp ->
  network inp (explain_request inp) = ok data ->
  subscript data (lit "html_explanation") = inr (PyStr html) ->
  subscript data (lit "explanation") = inr v ->
  iterate v = inr items ->
  weighted_items items pairs ->
  draws (events (run rt inp))
    (explanation_around inp
       (explanation_heading :: explanation_frame (PyStr html) ++ word_lines pairs))
  /\ length (word_lines pairs) = length items.
Proof.
  intros Htaken Hnet H1 H2 H3 Hitems. split; [| exact (weighted_items_length _ _ Hitems)].
  destruct (explain_taken_in_run rt inp Htaken) as [s Hdraw]. apply Hdraw.
  rewrite (explain_section_200 rt inp (inr data) s Hnet).
  rewrite (render_explanation_items rt data html v _ s H1 H2 H3).
  rewrite (for_each_lines rt items pairs s Hitems). reflexivity.
Qed.

Lemma explanation_lines_follow_the_list_witness :
  let pairs := [(lit "love", 0.42%float); (lit "the", 0%float); (lit "bad", (-0.31)%float)] in
  let items :=
    [PyDict [(lit "weight", PyFloat 0.42); (lit "word", PyStr (lit "love"));
             (lit "rank", PyInt 1)];
     PyDict [(lit "word", PyStr (lit "the")); (lit "weight", PyFloat 0)];
     PyDict [(lit "rank", PyInt 3); (lit "word", PyStr (lit "bad"));
             (lit "weight", PyFloat (-0.31))]] in
  let data := explain_body (PyStr (lit "<div>lime</div>")) mock_annotated_explanation in
  let inp := sample_inputs (lit "I love the bad") false true
               (mock_network mock_predict_body data) in
  explain_taken inp
  /\ weighted_items items pairs
  /\ draws (events (run sample_runtime inp))
       (explanation_around inp
          (explanation_heading :: explanation_frame (PyStr (lit "<div>lime</div>"))
           ++ [Render InExpander (Markdown (lit "- <span style='color:green'>love</span> → 0.420") true);
               Render InExpander (Markdown (lit "- <span style='color:red'>the</span> → 0.000") true);
               Render InExpander (Markdown (lit "- <span style='color:red'>bad</span> → -0.310") true)]))
  /\ length (word_lines pairs) = 3.
Proof.
  intros pairs items data inp.
  assert (Htaken : explain_taken inp)
    by (split; [reflexivity | split; [reflexivity | cbn; lia]]).
  assert (Hitems : weighted_items items pairs)
    by (repeat (constructor; [split; reflexivity |]); constructor).
  split; [exact Htaken |]. split; [exact Hitems |].
  exact (explanation_lines_follow_the_list sample_runtime inp data
           (lit "<div>lime</div>") mock_annotated_explanation items pairs
           Htaken eq_refl eq_refl eq_refl eq_refl Hitems).
Defined.

(** X12. When the HTML fragment is a string and an item of the
    explanation has no readable weight (it is not a dict, or it lacks the
    key), the lines of the items before it stay drawn, the error box of
    the exception follows them, and no item after it is drawn. *)
Theorem explanation_stops_at_bad_item rt inp data html v good pairs bad rest e :
  explain_taken inp ->
  network inp (explain_request inp) = ok data ->
  subscript data (lit "html_explanation") = inr (PyStr html) ->
  subscript data (lit "explanation") = inr v ->
  iterate v = inr (good ++ bad :: rest) ->
  weighted_items good pairs ->
  subscript bad (lit "weight") = inl e ->
  draws (events (run rt inp))
    (explanation_around inp
       (explanation_heading :: explanation_frame (PyStr html)
        ++ word_lines pairs ++ [error_box rt e])).
Proof.
  intros Htaken Hnet H1 H2 H3 Hgood Hbad.
  destruct (explain_taken_in_run rt inp Htaken) as [s Hdraw]. apply Hdraw.
  rewrite (explain_section_200 rt inp (inr data) s Hnet).
  rewrite (render_explanation_items rt data html v _ s H1 H2 H3).
  rewrite (for_each_stops rt good pairs bad rest e s Hgood Hbad).
  cbn [outcome events fst snd explanation_frame app]. reflexivity.
Qed.

Lemma explanation_stops_at_bad_item_witness :
  let data := explain_body (PyStr (lit "<div>lime</div>")) mock_broken_explanation in
  let inp := sample_inputs (lit "I love the bad") false true
               (mock_network mock_predict_body data) in
  explain_taken inp
  /\ weighted_items (weighted_words [(lit "love", 0.42%float)]) [(lit "love", 0.42%float)]
  /\ subscript (PyDict [(lit "word", PyStr (lit "bad"))]) (lit "weight")
     = inl (KeyError (lit "weight"))
  /\ draws (events (run sample_runtime inp))
       (explanation_around inp
          (explanation_heading :: explanation_frame (PyStr (lit "<div>lime</div>"))
           ++ word_lines [(lit "love", 0.42%float)]
           ++ [error_box sample_runtime (KeyError (lit "weight"))])).
Proof.
  intros data inp.
  assert (Htaken : explain_taken inp)
    by (split; [reflexivity | split; [reflexivity | cbn; lia]]).
  assert (Hgood : weighted_items (weighted_words [(lit "love", 0.42%float)])
                    [(lit "love", 0.42%float)])
    by (repeat (constructor; [split; reflexivity |]); constructor).
  split; [exact Htaken |]. split; [exact Hgood |]. split; [reflexivity |].
  exact (explanation_stops_at_bad_item sample_runtime inp data
           (lit "<div>lime</div>") mock_broken_explanation
           (weighted_words [(lit "love", 0.42%float)]) [(lit "love", 0.42%float)]
           (PyDict [(lit "word", PyStr (lit "bad"))])
           (weighted_words [(lit "the", 0%float)]) (KeyError (lit "weight"))
           Htaken eq_refl eq_refl eq_refl eq_refl Hgood eq_refl).
Defined.

Lemma render_explanation_without_html rt data e s :
  subscript data (lit "html_explanation") = inl e ->
  render_explanation rt data s = (inl (Uncaught e), s, [explanation_heading]).
Proof. intros H. unfold render_explanation, bind. rewrite H. reflexivity. Qed.

Lemma render_explanation_html_rejected rt data html e s :
  subscript data (lit "html_explanation") = inr html ->
  html_check rt html = inl e ->
  render_explanation rt data s = (inl (Uncaught e), s, [explanation_heading]).
Proof.
  intros H1 H2. unfold render_explanation, bind. rewrite H1. cbn [emit lift ret].
  rewrite (components_html_rejected rt html e s H2). reflexivity.
Qed.

Lemma render_explanation_without_list rt data html e s :
  subscript data (lit "html_explanation") = inr (PyStr html) ->
  match subscript data (lit "explanation") with
  | inl e' => e' = e
  | inr v => iterate v = inl e
  end ->
  render_explanation rt data s =
  (inl (Uncaught e), s, explanation_heading :: explanation_frame (PyStr html)).
Proof.
  intros H1 H2. unfold render_explanation, bind. rewrite H1. cbn [emit lift ret].
  rewrite components_html_string.
  destruct (subscript data (lit "explanation")) as [e' | v].
  - subst e'. reflexivity.
  - cbn [emit lift ret]. rewrite H2. reflexivity.
Qed.

(** X13. When /explain answers 200 with a body from which
    "html_explanation" cannot be read (not a dict, or the key is
    missing), the run draws the heading and then the error box of the
    exception: no HTML frame, no expander, no line. *)
Theorem explanation_without_html rt inp data e :
  explain_taken inp ->
  network inp (explain_request inp) = ok data ->
  subscript data (lit "html_explanation") = inl e ->
  draws (events (run rt inp))
    (explanation_around inp [explanation_heading; error_box rt e]).
Proof.
  intros Htaken Hnet H1.
  destruct (explain_taken_in_run rt inp Htaken) as [s Hdraw]. apply Hdraw.
  rewrite (explain_section_200 rt inp (inr data) s Hnet).
  rewrite (render_explanation_without_html rt data e s H1). reflexivity.
Qed.

Lemma explanation_without_html_witness :
  let data := PyDict [(lit "explanation", mock_explanation)] in
  let inp := sample_inputs (lit "I love the bad") false true
               (mock_network mock_predict_body data) in
  explain_taken inp
  /\ draws (events (run sample_runtime inp))
       (explanation_around inp
          [explanation_heading; error_box sample_runtime (KeyError (lit "html_explanation"))]).
Proof.
  intros data inp.
  assert (Htaken : explain_taken inp)
    by (split; [reflexivity | split; [reflexivity | cbn; lia]]).
  split; [exact Htaken |].
  exact (explanation_without_html sample_runtime inp data (KeyError (lit "html_explanation"))
           Htaken eq_refl eq_refl).
Defined.

(** X14. When the HTML fragment is a string but the explanation is
    missing or is not something a [for] loop can visit (None, a bool, a
    number), the run draws the heading, the HTML frame and the expander,
    and then the error box of the exception, with no line. *)
Theorem explanation_without_list rt inp data html e :
  explain_taken inp ->
  network inp (explain_request inp) = ok data ->
  subscript data (lit "html_explanation") = inr (PyStr html) ->
  match subscript data (lit "explanation") with
  | inl e' => e' = e
  | inr v => iterate v = inl e
  end ->
  draws (events (run rt inp))
    (explanation_around inp
       (explanation_heading :: explanation_frame (PyStr html) ++ [error_box rt e])).
Proof.
  intros Htaken Hnet H1 H2.
  destruct (explain_taken_in_run rt inp Htaken) as [s Hdraw]. apply Hdraw.
  rewrite (explain_section_200 rt inp (inr data) s Hnet).
  rewrite (render_explanation_without_list rt data html e s H1 H2). reflexivity.
Qed.

Lemma explanation_without_list_witness :
  let data := explain_body (PyStr (lit "<div>lime</div>")) PyNone in
  let inp := sample_inputs (lit "I love the bad") false true
               (mock_network mock_predict_body data) in
  explain_taken inp
  /\ iterate PyNone = inl TypeError
  /\ draws (events (run sample_runtime inp))
       (explanation_around inp
          (explanation_heading :: explanation_frame (PyStr (lit "<div>lime</div>"))
           ++ [error_box sample_runtime TypeError])).
Proof.
  intros data inp.
  assert (Htaken : explain_taken inp)
    by (split; [reflexivity | split; [reflexivity | cbn; lia]]).
  split; [exact Htaken |]. split; [reflexivity |].
  exact (explanation_without_list sample_runtime inp data (lit "<div>lime</div>")
           TypeError Htaken eq_refl eq_refl eq_refl).
Defined.

(** X16. When the HTML fragment of a 200 answer of /explain is not a
    string and [st.components.v1.html] raises on it, the run draws the
    heading and then the error box of that exception: no HTML frame, no
    expander and no line, even if the explanation itself is well formed. *)
Theorem explanation_with_rejected_html rt inp data html e :
  explain_taken inp ->
  network inp (explain_request inp) = ok data ->
  subscript data (lit "html_explanation") = inr html ->
  html_check rt html = inl e ->
  draws (events (run rt inp))
    (explanation_around inp [explanation_heading; error_box rt e]).
Proof.
  intros Htaken Hnet H1 H2.
  destruct (explain_taken_in_run rt inp Htaken) as [s Hdraw]. apply Hdraw.
  rewrite (explain_section_200 rt inp (inr data) s Hnet).
  rewrite (render_explanation_html_rejected rt data html e s H1 H2). reflexivity.
Qed.

Lemma explanation_with_rejected_html_witness :
  let data := explain_body (PyInt 5) mock_explanation in
  let inp := sample_inputs (lit "I love the bad") false true
               (mock_network mock_predict_body data) in
  explain_taken inp
  /\ html_check sample_runtime (PyInt 5) = inl TypeError
  /\ draws (events (run sample_runtime inp))
       (explanation_around inp [explanation_heading; error_box sample_runtime TypeError]).
Proof.
  intros data inp.
  assert (Htaken : explain_taken inp)
    by (split; [reflexivity | split; [reflexivity | cbn; lia]]).
  split; [exact Htaken |]. split; [reflexivity |].
  exact (explanation_with_rejected_html sample_runtime inp data (PyInt 5) TypeError
           Htaken eq_refl eq_refl eq_refl).
Defined.

(** *** The positive badge *)

Lemma pos_variant_is_pos rt sentiment :
  startswith_nocase sentiment (lit "pos") = true ->
  startswith (lower rt sentiment) (lit "pos") = true.
Proof.
  change (lit "pos") with [112%N; 111%N; 115%N].
  destruct sentiment as [| c1 [| c2 [| c3 rest]]]; cbn [startswith_nocase]; intros H;
    try (rewrite ?andb_false_r in H; discriminate H).
  change (ascii_lower 112) with 112%N in H. change (ascii_lower 111) with 111%N in H.
  change (ascii_lower 115) with 115%N in H.
  rewrite andb_true_r in H.
  apply andb_true_iff in H. destruct H as [H1 H].
  apply andb_true_iff in H. destruct H as [H2 H3].
  apply andb_true_iff in H1. destruct H1 as [A1 E1].
  apply andb_true_iff in H2. destruct H2 as [A2 E2].
  apply andb_true_iff in H3. destruct H3 as [A3 E3].
  unfold lower. cbn [lower_from]. rewrite A1, A2, A3.
  cbn [app startswith]. rewrite E1, E2, E3. reflexivity.
Qed.

(** X15. When /predict answers 200 with a PredictionResult whose
    sentiment starts with "pos" in any mix of upper and lower case
    ("positive", "Positive", "POS"), the predict action draws the positive
    badge, a success box with the confidence as a percentage to one
    decimal, followed by the chart. *)
Theorem positive_prefix_draws_positive_badge rt inp data sentiment confidence prob_pos prob_neg :
  predict_taken inp ->
  network inp (predict_request inp) = ok data ->
  is_prediction data sentiment confidence prob_pos prob_neg ->
  startswith_nocase sentiment (lit "pos") = true ->
  draws (events (run rt inp))
    (prediction_drawn inp
       (Render Main (Success (lit "😊 **POSiTIF** (" ++ format_pct 1 confidence ++ lit ")")))
       prob_neg prob_pos).
Proof.
  intros [Hc [Hp Hlen]] Hnet Hdata Hpos.
  pose proof (prediction_in_run rt inp data sentiment confidence prob_pos prob_neg
                Hc Hp Hlen Hnet Hdata) as H.
  rewrite (pos_variant_is_pos rt sentiment Hpos) in H. exact H.
Qed.

Lemma positive_prefix_draws_positive_badge_witness :
  let data := PyDict [(lit "sentiment", PyStr (lit "POSITIVE"));
                      (lit "confidence", PyFloat 0.625);
                      (lit "probability_positive", PyFloat 0.625);
                      (lit "probability_negative", PyFloat 0.375)] in
  let inp := sample_inputs (lit "J'adore") true false (mock_network data mock_explain_body) in
  predict_taken inp
  /\ is_prediction data (lit "POSITIVE") 0.625 0.625 0.375
  /\ startswith_nocase (lit "POSITIVE") (lit "pos") = true
  /\ draws (events (run sample_runtime inp))
       (prediction_drawn inp (Render Main (Success (lit "😊 **POSiTIF** (62.5%)"))) 0.375 0.625).
Proof.
  intros data inp.
  assert (Htaken : predict_taken inp)
    by (split; [reflexivity | split; [reflexivity | cbn; lia]]).
  assert (Hdata : is_prediction data (lit "POSITIVE") 0.625 0.625 0.375)
    by (repeat split; reflexivity).
  split; [exact Htaken |]. split; [exact Hdata |]. split; [reflexivity |].
  exact (positive_prefix_draws_positive_badge sample_runtime inp data (lit "POSITIVE")
           0.625 0.625 0.375 Htaken eq_refl Hdata eq_refl).
Defined.
